(** * wikiqabot: a shallow embedding of [qa.py]

    The script is a sequential chat loop around three opaque services:
    the Wikidata / Wikipedia HTTP APIs, a sentence-embedding model and a
    sequence-to-sequence language model.  The embedding below keeps the
    script's own code (string formatting, JSON field extraction, the
    similarity ranking and the read-eval-print loop) and takes the three
    services as section variables.

    Layout:
    - [Py]       the Python primitives the script uses on strings and on
                 decoded JSON values, with the exceptions they raise;
    - [Eff]      the monad of the script: exceptions over a log of the
                 interactions with the outside world;
    - [Wikidata] [search], [get_label], [get_prop_value], [get_summary];
    - [Ranker]   [cos_sim] and [get_topn_similar];
    - [Chat]     [generate] and the main loop;
    - [Demo]     concrete services, to run the definitions;
    - [Lexical]  [get_words]; [Frame] and [Replies] serve the later
                 properties;
    - then the properties, one module of facts per component. *)

From Stdlib Require Import List String Ascii Bool Arith ZArith QArith Lia
  Permutation Sorted DecimalString.
Import ListNotations.

Set Warnings "-register-all,-notation-for-abbreviation".
Local Open Scope string_scope.
Local Open Scope list_scope.

(* ===================================================================== *)
(** * Python primitives *)
(* ===================================================================== *)

Module Py.

(** The built-in exceptions that the operations of the script can raise.
    [RequestError] stands for whatever [requests.get(..).json()] raises
    when the network or the decoding fails; it is not a [KeyError].
    [EOFError] is what [input] raises at the end of standard input. *)
Inductive exn : Type :=
| KeyError | IndexError | TypeError | ValueError | AttributeError
| RequestError | EOFError.

(** A Python expression either raises or yields a value. *)
Definition res (A : Type) : Type := (exn + A)%type.

Definition ok {A} (a : A) : res A := inr a.
Definition throw {A} (e : exn) : res A := inl e.

Definition rbind {A B} (r : res A) (f : A -> res B) : res B :=
  match r with
  | inl e => inl e
  | inr a => f a
  end.

(** ** Strings *)

(** [s.split(sep)] for a one-character separator: the pieces between the
    occurrences of [sep]; the result is never the empty list. *)
Fixpoint split (sep : ascii) (s : string) : list string :=
  match s with
  | EmptyString => [EmptyString]
  | String c s' =>
      if Ascii.eqb c sep then EmptyString :: split sep s'
      else match split sep s' with
           | [] => [String c EmptyString]
           | w :: ws => String c w :: ws
           end
  end.

(** [l[-1]] on a list of strings. *)
Definition last_item (l : list string) : res string :=
  match l with
  | [] => throw IndexError
  | x :: l' => ok (List.last l' x)
  end.

Fixpoint mem_char (c : ascii) (chars : string) : bool :=
  match chars with
  | EmptyString => false
  | String d chars' => Ascii.eqb c d || mem_char c chars'
  end.

(** [s.lstrip(chars)]: drop the longest prefix made of characters of
    [chars]. *)
Fixpoint lstrip (chars : string) (s : string) : string :=
  match s with
  | EmptyString => EmptyString
  | String c s' => if mem_char c chars then lstrip chars s' else s
  end.

(** [sep.join(l)] *)
Fixpoint join (sep : string) (l : list string) : string :=
  match l with
  | [] => EmptyString
  | [x] => x
  | x :: l' => x ++ sep ++ join sep l'
  end.

Fixpoint starts_with (p s : string) : bool :=
  match p, s with
  | EmptyString, _ => true
  | String a p', String b s' => Ascii.eqb a b && starts_with p' s'
  | String _ _, EmptyString => false
  end.

(** [p in s] on two strings: substring test. *)
Fixpoint str_contains (p s : string) : bool :=
  starts_with p s ||
  match s with
  | EmptyString => false
  | String _ s' => str_contains p s'
  end.

(** The characters of a string, each as a one-character string (what
    iterating over a [str] yields). *)
Fixpoint chars_of (s : string) : list string :=
  match s with
  | EmptyString => []
  | String c s' => String c EmptyString :: chars_of s'
  end.

(** [l[:n]] for an integer [n]: a negative bound counts from the end. *)
Definition slice_to {A} (n : Z) (l : list A) : list A :=
  if (0 <=? n)%Z then firstn (Z.to_nat n) l
  else firstn (List.length l - Z.to_nat (- n)) l.

(** ** Decoded JSON *)

(** What [response.json()] returns.  A [JDict] lists the items of a
    Python [dict] in insertion order; its keys are pairwise distinct. *)
Inductive json : Type :=
| JNull
| JBool (b : bool)
| JInt (z : Z)
| JFloat (q : Q)
| JStr (s : string)
| JList (l : list json)
| JDict (d : list (string * json)).

Fixpoint lookup (k : string) (d : list (string * json)) : option json :=
  match d with
  | [] => None
  | (k', v) :: d' => if String.eqb k k' then Some v else lookup k d'
  end.

(** [v[k]] for a string key [k]. *)
Definition getitem (v : json) (k : string) : res json :=
  match v with
  | JDict d => match lookup k d with
               | Some x => ok x
               | None => throw KeyError
               end
  | _ => throw TypeError
  end.

(** [l[i]] for an integer [i] on a Python sequence: a negative index
    counts from the end. *)
Definition seq_index {A} (l : list A) (i : Z) : res A :=
  let n := Z.of_nat (List.length l) in
  let j := if (i <? 0)%Z then (n + i)%Z else i in
  if ((0 <=? j) && (j <? n))%Z
  then match nth_error l (Z.to_nat j) with
       | Some x => ok x
       | None => throw IndexError
       end
  else throw IndexError.

(** [v[i]] for an integer [i]: a dict decoded from JSON has no integer
    key. *)
Definition getitem_int (v : json) (i : Z) : res json :=
  match v with
  | JList l => seq_index l i
  | JStr s => rbind (seq_index (chars_of s) i) (fun c => ok (JStr c))
  | JDict _ => throw KeyError
  | _ => throw TypeError
  end.

(** [v[k]] where the key [k] is itself a decoded value.  A [bool] is an
    [int] in Python; [None] and a float are hashable but index nothing;
    a list or a dict is unhashable. *)
Definition getitem_json (v : json) (k : json) : res json :=
  match k with
  | JStr s => getitem v s
  | JInt i => getitem_int v i
  | JBool b => getitem_int v (if b then 1 else 0)%Z
  | JNull | JFloat _ =>
      match v with
      | JDict _ => throw KeyError
      | _ => throw TypeError
      end
  | JList _ | JDict _ => throw TypeError
  end.

Definition is_str (k : string) (v : json) : bool :=
  match v with
  | JStr s => String.eqb k s
  | _ => false
  end.

(** [k in v] for a string [k]: key membership on a dict, element
    membership on a list, substring test on a string. *)
Definition contains (k : string) (v : json) : res bool :=
  match v with
  | JDict d => ok (match lookup k d with Some _ => true | None => false end)
  | JList l => ok (existsb (is_str k) l)
  | JStr s => ok (str_contains k s)
  | _ => throw TypeError
  end.

(** [v.lstrip(chars)] *)
Definition lstrip_json (chars : string) (v : json) : res json :=
  match v with
  | JStr s => ok (JStr (lstrip chars s))
  | _ => throw AttributeError
  end.

(** [s + v] for a string [s]. *)
Definition str_add (s : string) (v : json) : res string :=
  match v with
  | JStr t => ok (s ++ t)%string
  | _ => throw TypeError
  end.

(** [v += s] for a string [s]: concatenation on a string; a list is
    extended with the characters of [s]. *)
Definition iadd_str (v : json) (s : string) : res json :=
  match v with
  | JStr t => ok (JStr (t ++ s)%string)
  | JList l => ok (JList (l ++ map JStr (chars_of s)))
  | _ => throw TypeError
  end.

(** [d.popitem()[1]]: the value inserted last. *)
Definition popitem_value (v : json) : res json :=
  match v with
  | JDict [] => throw KeyError
  | JDict (kv :: d) => ok (snd (List.last d kv))
  | _ => throw AttributeError
  end.

(** [v[:1]] then iteration, as in [for result in search(word)[:1]]:
    at most the first element of a list, the first character of a
    string; other values cannot be sliced (a dict takes the slice for a
    key; up to Python 3.11 that key is unhashable). *)
Definition first_items (v : json) : res (list json) :=
  match v with
  | JList l => ok (firstn 1 l)
  | JStr s => ok (map JStr (firstn 1 (chars_of s)))
  | _ => throw TypeError
  end.

End Py.

(* ===================================================================== *)
(** * Effects *)
(* ===================================================================== *)

Module Eff.
Import Py.

(** What the outside world sees of a run: the URLs requested, the prompts
    handed to the language model, and what was written to standard
    output, each in order. *)
Record world : Type := mkWorld {
  requests : list string;
  prompts : list string;
  stdout : list string
}.

Definition empty_world : world := mkWorld [] [] [].

Definition log_request (url : string) (w : world) : world :=
  mkWorld (requests w ++ [url]) (prompts w) (stdout w).

Definition log_prompt (p : string) (w : world) : world :=
  mkWorld (requests w) (prompts w ++ [p]) (stdout w).

Definition log_stdout (s : string) (w : world) : world :=
  mkWorld (requests w) (prompts w) (stdout w ++ [s]).

(** A statement of the script: it may raise, and what it did to the world
    before raising stays done. *)
Definition M (A : Type) : Type := world -> res A * world.

Definition ret {A} (a : A) : M A := fun w => (inr a, w).

Definition raise {A} (e : exn) : M A := fun w => (inl e, w).

Definition bind {A B} (m : M A) (f : A -> M B) : M B :=
  fun w => match m w with
           | (inl e, w') => (inl e, w')
           | (inr a, w') => f a w'
           end.

Definition lift {A} (r : res A) : M A := fun w => (r, w).

(** [try: body  except KeyError: handler] *)
Definition except_KeyError {A} (body handler : M A) : M A :=
  fun w => match body w with
           | (inl KeyError, w') => handler w'
           | r => r
           end.

(** [for x in l: s = body(x, s)] *)
Fixpoint for_each {A S} (l : list A) (body : A -> S -> M S) (s : S) : M S :=
  match l with
  | [] => ret s
  | x :: l' => bind (body x s) (for_each l' body)
  end.

Definition print (s : string) : M unit := fun w => (inr tt, log_stdout s w).

End Eff.

Declare Scope eff_scope.
Delimit Scope eff_scope with eff.
Notation "x <- c ;; k" := (Eff.bind c (fun x => k))
  (at level 61, c at next level, right associativity) : eff_scope.
Notation "c ;;; k" := (Eff.bind c (fun _ => k))
  (at level 61, right associativity) : eff_scope.
Notation "r @[ k ]" := (Py.rbind r (fun v => Py.getitem v k))
  (at level 1, left associativity, format "r @[ k ]").

Local Open Scope eff_scope.

(* ===================================================================== *)
(** * The knowledge-base client *)
(* ===================================================================== *)

Module Wikidata.
Import Py Eff.

Section Client.

(** The remote services as they stand during a run:
    [requests.get(url).json()], [None] when the request or the decoding
    fails. *)
Variable http_json : string -> option json.

(** [str(v)] for a decoded value that is not a string, as an f-string
    formats it. *)
Variable py_repr : json -> string.

Definition fmt (v : json) : string :=
  match v with
  | JStr s => s
  | _ => py_repr v
  end.

Definition requests_get_json (url : string) : M json :=
  fun w => (match http_json url with
            | Some j => ok j
            | None => throw RequestError
            end, log_request url w).

Definition search_url (query : string) : string :=
  "https://www.wikidata.org/w/api.php?action=wbsearchentities&" ++
  "search=" ++ query ++ "&language=en&format=json".

Definition search (query : string) : M json :=
  result <- requests_get_json (search_url query) ;;
  lift ((ok result)@["search"]).

Definition label_url (entity : string) : string :=
  "https://www.wikidata.org/w/api.php?action=wbgetentities&" ++
  "ids=" ++ entity ++ "&props=labels&languages=en&format=json".

Definition get_label (entity : json) : M json :=
  match entity with
  | JStr e =>
      entity <- lift (last_item (split "/" e)) ;;
      result <- requests_get_json (label_url entity) ;;
      lift ((ok result)@["entities"]@[entity]@["labels"]@["en"]@["value"])
  | _ => raise AttributeError
  end.

Definition claims_url (entity : string) : string :=
  "https://www.wikidata.org/w/api.php?action=wbgetentities&" ++
  "ids=" ++ entity ++ "&props=claims&language=en&format=json".

(** Line 96: the main snak of the first claim of [prop] on [entity]. *)
Definition first_claim (result : json) (entity prop : string) : res json :=
  rbind (rbind ((ok result)@["entities"]@[entity]@["claims"]@[prop])
               (fun claims => getitem_int claims 0))
        (fun c => getitem c "mainsnak").

(** Lines 100-107: the [if]/[elif] chain over
    [dv = claim["datavalue"]["value"]]. *)
Definition base_value (dv : json) : M json :=
  is_amount <- lift (contains "amount" dv) ;;
  if is_amount : bool then lift (rbind (getitem dv "amount") (lstrip_json "+"))
  else
    is_time <- lift (contains "time" dv) ;;
    if is_time : bool then lift (getitem dv "time")
    else
      is_id <- lift (contains "id" dv) ;;
      if is_id : bool then (i <- lift (getitem dv "id") ;; get_label i)
      else ret dv.

(** Lines 109-112: [value += " " + get_label(dv["unit"])] under
    [except KeyError: pass]. *)
Definition add_unit (dv value : json) : M json :=
  except_KeyError
    (unit <- lift (getitem dv "unit") ;;
     label <- get_label unit ;;
     suffix <- lift (str_add " " label) ;;
     lift (iadd_str value suffix))
    (ret value).

(** [None] is [JNull]. *)
Definition get_prop_value (entity prop : string) : M json :=
  result <- requests_get_json (claims_url entity) ;;
  match first_claim result entity prop with
  | inl KeyError => ret JNull
  | inl e => raise e
  | inr claim =>
      dv <- lift ((ok claim)@["datavalue"]@["value"]) ;;
      value <- base_value dv ;;
      add_unit dv value
  end.

Definition search_prop_url (query : string) : string :=
  "https://www.wikidata.org/w/api.php?action=wbsearchentities&" ++
  "search=" ++ query ++ "&type=property&language=en&format=json".

Definition search_prop (query : string) : M json :=
  result <- requests_get_json (search_prop_url query) ;;
  lift (rbind ((ok result)@["search"]) (fun l => getitem_int l 0)).

Definition sitelinks_url (wikidata_id : json) : string :=
  "https://www.wikidata.org/w/api.php?action=wbgetentities&" ++
  "props=sitelinks/urls&ids=" ++ fmt wikidata_id ++ "&format=json".

Definition extract_url (en_title : json) : string :=
  "https://en.wikipedia.org/w/api.php?action=query&prop=extracts&" ++
  "exintro&explaintext&redirects=1&titles=" ++ fmt en_title ++ "&format=json".

Definition get_summary (wikidata_id : json) : M json :=
  data_result <- requests_get_json (sitelinks_url wikidata_id) ;;
  en_title <- lift (rbind (rbind ((ok data_result)@["entities"])
                                 (fun es => getitem_json es wikidata_id))
                          (fun e => (ok e)@["sitelinks"]@["enwiki"]@["title"])) ;;
  wiki_result <- requests_get_json (extract_url en_title) ;;
  lift ((rbind ((ok wiki_result)@["query"]@["pages"]) popitem_value)@["extract"]).

(** ** The resolution rules as the specification words them

    A claim value is an object of one of three shapes: an [amount]
    (returned without its leading [+]), a [time] string, or an entity
    reference [id] (returned as its label); a value that carries a [unit]
    gets the label of the unit appended after one space.  Resolving a
    label is a request, so both relations carry the world before and
    after. *)
Inductive resolved_base (dv : list (string * json)) (w : world)
  : string -> world -> Prop :=
| Resolved_amount (a : string) :
    lookup "amount" dv = Some (JStr a) ->
    resolved_base dv w (lstrip "+" a) w
| Resolved_time (t : string) :
    lookup "amount" dv = None ->
    lookup "time" dv = Some (JStr t) ->
    resolved_base dv w t w
| Resolved_id (i : json) (label : string) (w' : world) :
    lookup "amount" dv = None ->
    lookup "time" dv = None ->
    lookup "id" dv = Some i ->
    get_label i w = (ok (JStr label), w') ->
    resolved_base dv w label w'.

Inductive resolved_unit (dv : list (string * json)) (base : string)
  (w : world) : string -> world -> Prop :=
| Resolved_no_unit :
    lookup "unit" dv = None ->
    resolved_unit dv base w base w
| Resolved_with_unit (u : json) (label : string) (w' : world) :
    lookup "unit" dv = Some u ->
    get_label u w = (ok (JStr label), w') ->
    resolved_unit dv base w (base ++ " " ++ label) w'.

End Client.

End Wikidata.

(* ===================================================================== *)
(** * The similarity ranker *)
(* ===================================================================== *)

Module Ranker.
Import Py.

(** Numbers are exact rationals: rounding, overflow and the IEEE special
    values of the 32-bit floats of the embedding model are outside this
    model ([x / 0] is [0] here). *)

Definition Qltb (x y : Q) : bool := negb (Qle_bool y x).

(** [sorted(l, key=key)]: the stable ascending sort.  Python compares
    keys with [<] only; an element goes behind every element whose key is
    not greater than its own. *)
Fixpoint insert {A} (key : A -> Q) (x : A) (l : list A) : list A :=
  match l with
  | [] => [x]
  | y :: l' => if Qltb (key x) (key y) then x :: l else y :: insert key x l'
  end.

Definition sorted {A} (key : A -> Q) (l : list A) : list A :=
  fold_left (fun acc x => insert key x acc) l [].

(** The order of the keys, for stating that a list is sorted. *)
Definition key_le {A} (key : A -> Q) (a b : A) : Prop :=
  (key a <= key b)%Q.

Definition dot (a b : list Q) : Q :=
  fold_right Qplus 0%Q (map (fun p => (fst p * snd p)%Q) (combine a b)).

(** The arrays that [embedding_model.encode] returns for a list of
    sentences: one-dimensional of shape [(n,)], or two-dimensional of
    shape [(len rows, cols)]. *)
Inductive batch : Type :=
| Batch1 (v : list Q)
| Batch2 (cols : nat) (rows : list (list Q)).

(** The product [matmul(a, transpose(b))] for [a] of shape [(1, d)]: of
    shape [(1,)] against a one-dimensional [b], of shape [(1, k)] against
    a [b] of [k] rows. *)
Inductive product : Type :=
| Prod1 (x : Q)
| Prod1k (row : list Q).

(** [np.squeeze] of such a product: every axis of length one goes, which
    leaves a zero-dimensional array when there is a single entry. *)
Inductive squeezed : Type :=
| Array0 (x : Q)
| Array1 (v : list Q).

Definition np_squeeze (p : product) : squeezed :=
  match p with
  | Prod1 x => Array0 x
  | Prod1k [x] => Array0 x
  | Prod1k row => Array1 row
  end.

(** [zip(arr, inputs)]: a zero-dimensional array cannot be iterated. *)
Definition zip_scores (arr : squeezed) (inputs : list string)
  : res (list (Q * string)) :=
  match arr with
  | Array0 _ => throw TypeError
  | Array1 v => ok (combine v inputs)
  end.

(** The sort key [lambda s: -s[0]]. *)
Definition neg_score (s : Q * string) : Q := (- fst s)%Q.

Section Model.

(** The sentence-embedding model: [encode s j] is component [j] of the
    embedding of [s], of dimension [dim]. *)
Variable dim : nat.
Variable encode : string -> nat -> Q.

(** The shape of [embedding_model.encode([])], fixed by the embedding
    library: [None] for the one-dimensional empty array of shape [(0,)],
    [Some c] for shape [(0, c)]. *)
Variable empty_batch_cols : option nat.

(** [np.linalg.norm]: the square root of the sum of the squares of all
    the entries of its argument (for a matrix, the Frobenius norm). *)
Variable norm : list Q -> Q.

Definition embed (s : string) : list Q := map (encode s) (seq 0 dim).

Definition encode_list (inputs : list string) : batch :=
  match inputs with
  | [] => match empty_batch_cols with
          | None => Batch1 []
          | Some c => Batch2 c []
          end
  | _ => Batch2 dim (map embed inputs)
  end.

(** [cos_sim(a, b)] for [a] of shape [(1, len a)].  Both norms are taken
    of the whole arrays: every entry of the product is divided by the
    same number. *)
Definition cos_sim (a : list Q) (b : batch) : res product :=
  match b with
  | Batch1 v =>
      if Nat.eqb (List.length a) (List.length v)
      then ok (Prod1 (dot a v / (norm a * norm v)))
      else throw ValueError
  | Batch2 cols rows =>
      if Nat.eqb (List.length a) cols
      then ok (Prod1k (map (fun r => dot a r / (norm a * norm (List.concat rows)))%Q
                           rows))
      else throw ValueError
  end.

Definition get_topn_similar (anchor : string) (inputs : list string) (n : Z)
  : res (list string) :=
  let anchor_emb := embed anchor in
  let inputs_emb := encode_list inputs in
  rbind (cos_sim anchor_emb inputs_emb) (fun p =>
  rbind (zip_scores (np_squeeze p) inputs) (fun similarities =>
  let top_n := slice_to n (sorted neg_score similarities) in
  ok (map snd top_n))).

(** The score under which [get_topn_similar] ranks the candidate [c] of
    [inputs]: the entry of [cos_sim] for the row of [c]. *)
Definition score (anchor : string) (inputs : list string) (c : string) : Q :=
  (dot (embed anchor) (embed c) /
   (norm (embed anchor) * norm (List.concat (map embed inputs))))%Q.

(** The pairs that [zip] builds from the scores and the candidates. *)
Definition scored (anchor : string) (inputs : list string)
  : list (Q * string) :=
  map (fun c => (score anchor inputs c, c)) inputs.

(** Cosine similarity as the specification words it: the dot product of
    the two vectors divided by the product of their L2 norms. *)
Definition cosine (a b : list Q) : Q := (dot a b / (norm a * norm b))%Q.

End Model.

(** [l1] is an initial segment of [l2]. *)
Definition is_prefix {A} (l1 l2 : list A) : Prop :=
  exists rest, l2 = l1 ++ rest.

End Ranker.

(* ===================================================================== *)
(** * The response generator and the interactive loop *)
(* ===================================================================== *)

Module Chat.
Import Py Eff.
Local Open Scope string_scope.

(** Lines 160-163 of [generate]: the prompt handed to the tokenizer. *)
Definition generate_query (instruction knowledge : string)
  (dialog : list string) : string :=
  let knowledge :=
    if negb (String.eqb knowledge EmptyString) then "[KNOWLEDGE] " ++ knowledge
    else knowledge in
  let dialog := join " EOS " dialog in
  instruction ++ " [CONTEXT] " ++ dialog ++ " " ++ knowledge.

Definition instruction : string :=
  "Instruction: given a dialog context and related knowledge, " ++
  "you need to respond safely based on the knowledge.".

Record args : Type := mkArgs {
  large : bool;
  wikidata : bool;
  verbose : bool
}.

Definition model_name_of (a : args) : string :=
  if large a then "microsoft/GODEL-v1_1-large-seq2seq"
  else "microsoft/GODEL-v1_1-base-seq2seq".

Section Script.

Variable http_json : string -> option json.
Variable py_repr : json -> string.
Variable dim : nat.
Variable encode : string -> nat -> Q.
Variable empty_batch_cols : option nat.
Variable norm : list Q -> Q.

(** [get_proper_nouns]: the texts of the entities the NER model finds. *)
Variable get_proper_nouns : string -> list string.

(** [list(sentencer(text).sents)], each sentence as its text. *)
Variable sentences : string -> list string.

(** Tokenizer, sampling decoder and detokenizer of the named model: the
    reply to the prompt of the [i]-th call.  Sampling is random; the
    index lets two calls with one prompt differ. *)
Variable decode : string -> nat -> string -> string.

Definition generate (model_name instruction knowledge : string)
  (dialog : list string) : M string :=
  let query := generate_query instruction knowledge dialog in
  fun w => (inr (decode model_name (List.length (prompts w)) query),
            log_prompt query w).

(** Lines 234-236: the summaries of at most the first search result. *)
Definition summaries_of (word : string) : M string :=
  found <- Wikidata.search http_json word ;;
  results <- lift (first_items found) ;;
  for_each results
    (fun result summaries =>
       id <- lift (getitem result "id") ;;
       summary <- Wikidata.get_summary http_json py_repr id ;;
       lift (str_add summaries summary))
    EmptyString.

(** Lines 233-240: the knowledge string of a query. *)
Definition knowledge_of (query : string) : M string :=
  for_each (get_proper_nouns query)
    (fun word knowledge =>
       summaries <- summaries_of word ;;
       matches <- lift (Ranker.get_topn_similar dim encode empty_batch_cols
                          norm query (sentences summaries) 10) ;;
       ret (fold_left (fun k sentence => k ++ sentence ++ " ") matches
              knowledge))
    EmptyString.

(** Lines 231-246: one turn, once the query has been appended. *)
Definition turn (a : args) (query : string) (dialog : list string) : M unit :=
  knowledge <- (if wikidata a then knowledge_of query else ret EmptyString) ;;
  (if verbose a then print ("Knowledge: " ++ knowledge) else ret tt) ;;;
  response <- generate (model_name_of a) instruction knowledge
                (slice_to 500 dialog) ;;
  print ("Computer: " ++ response).

(** The [while True] loop over the lines that standard input still
    holds; [input] raises [EOFError] when there is none left. *)
Fixpoint loop (a : args) (stdin : list string) (dialog : list string)
  : M unit :=
  match stdin with
  | [] => print "You: " ;;; raise EOFError
  | query :: rest =>
      print "You: " ;;;
      let dialog := (dialog ++ [query])%list in
      turn a query dialog ;;;
      loop a rest dialog
  end.

Definition main (a : args) (stdin : list string) : M unit :=
  print ("Loading " ++ model_name_of a ++ "...") ;;;
  loop a stdin [].

End Script.

End Chat.

(* ===================================================================== *)
(** * Concrete services, for running the definitions *)
(* ===================================================================== *)

Module Demo.
Import Py Eff.
Local Open Scope string_scope.

(** One statement of an entity: its main snak holds the value. *)
Definition mainsnak (value : json) (type : string) : json :=
  JDict [("datavalue", JDict [("value", value); ("type", JStr type)])].

Definition statement (value : json) (type : string) : json :=
  JDict [("mainsnak", mainsnak value type)].

(** The mass of Saturn, as in the docstring of [get_prop_value]: a
    quantity whose unit is given as a URI. *)
Definition mass_value : list (string * json) :=
  [("amount", JStr "+568360");
   ("unit", JStr "http://www.wikidata.org/entity/Q613726")].

(** An item-valued claim (instance of: planet). *)
Definition instance_value : list (string * json) :=
  [("entity-type", JStr "item"); ("numeric-id", JInt 634);
   ("id", JStr "Q634")].

(** A monolingual-text claim (short name). *)
Definition name_value : list (string * json) :=
  [("text", JStr "Saturn"); ("language", JStr "en")].

(** The claims of Saturn; [P1036] (Dewey Decimal Classification) is a
    string-valued claim. *)
Definition saturn_claim_map : list (string * json) :=
  [("P2067", JList [statement (JDict mass_value) "quantity"]);
   ("P31", JList [statement (JDict instance_value) "wikibase-entityid"]);
   ("P1036", JList [statement (JStr "523.46") "string"]);
   ("P1813", JList [statement (JDict name_value) "monolingualtext"])].

Definition saturn_claims : json :=
  JDict [("entities",
          JDict [("Q193", JDict [("claims", JDict saturn_claim_map)])])].

Definition label_response (entity label : string) : json :=
  JDict [("entities", JDict [(entity, JDict [("labels", JDict [
    ("en", JDict [("language", JStr "en"); ("value", JStr label)])])])])].

Definition http_json (url : string) : option json :=
  if String.eqb url (Wikidata.claims_url "Q193") then Some saturn_claims
  else if String.eqb url (Wikidata.label_url "Q613726")
       then Some (label_response "Q613726" "yottagram")
  else if String.eqb url (Wikidata.label_url "Q634")
       then Some (label_response "Q634" "planet")
  else None.

Definition py_repr (v : json) : string := EmptyString.

(** A two-dimensional embedding and a norm that is exact on the sums of
    squares that are squares of rationals. *)
Definition encode (s : string) (j : nat) : Q :=
  nth j (if String.eqb s "What is Mars?" then [1; 0]
         else if String.eqb s "Mars is a planet" then [3; 4]
         else if String.eqb s "Mars is red" then [60 # 13; 144 # 13]
         else if String.eqb s "The sun is hot" then [0; 1]
         else [0; 0])%Q 0%Q.

Definition norm (v : list Q) : Q :=
  let s := Qred (fold_right Qplus 0 (map (fun x => x * x) v))%Q in
  (Z.sqrt (Qnum s) # Pos.sqrt (Qden s))%Q.

Definition get_proper_nouns (query : string) : list string := [].
Definition sentences (text : string) : list string := [text].
Definition decode (model_name : string) (i : nat) (prompt : string) : string :=
  "ok".

Definition get_topn_similar :=
  Ranker.get_topn_similar 2 encode None norm.

(** A session of [n] distinct user turns: ["turn 0"], ["turn 1"], ... *)
Definition turn_text (i : nat) : string :=
  "turn " ++ NilZero.string_of_uint (Nat.to_uint i).

Definition turns (n : nat) : list string := map turn_text (seq 0 n).

End Demo.

(* ===================================================================== *)
(** * The lexical filter *)
(* ===================================================================== *)

Module Lexical.
Import Py.

(** Characters are code points below 256. *)
Definition code (c : ascii) : N := N_of_ascii c.

Definition between (lo hi : N) (c : ascii) : bool :=
  ((lo <=? code c) && (code c <=? hi))%N.

(** The class [\s] of [re] on [str]: the Unicode white space. *)
Definition is_space (c : ascii) : bool :=
  between 9 13 c || between 28 32 c || (code c =? 133)%N
  || (code c =? 160)%N.

(** The character class of line 45: white space, [.], [?] and [!]. *)
Definition is_sep (c : ascii) : bool :=
  is_space c || Ascii.eqb c "." || Ascii.eqb c "?" || Ascii.eqb c "!".

(** The characters that [str.lower] changes: [A]-[Z] and the capital
    letters of Latin-1 (the multiplication sign, 215, is not one). *)
Definition is_upper (c : ascii) : bool :=
  between 65 90 c || (between 192 222 c && negb (code c =? 215)%N).

Definition lower_char (c : ascii) : ascii :=
  if is_upper c then ascii_of_N (code c + 32) else c.

(** [s.lower()] *)
Fixpoint lower (s : string) : string :=
  match s with
  | EmptyString => EmptyString
  | String c s' => String (lower_char c) (lower s')
  end.

(** [re.split(r"[\s\.\?\!]+", s)]: the pieces between the maximal runs
    of separators; a run at either end leaves an empty piece there.
    [in_run] tells that the character before [s] was a separator. *)
Fixpoint split_runs (in_run : bool) (s : string) : list string :=
  match s with
  | EmptyString => [EmptyString]
  | String c s' =>
      if is_sep c
      then if in_run then split_runs true s'
           else EmptyString :: split_runs true s'
      else match split_runs false s' with
           | [] => [String c EmptyString]
           | w :: ws => String c w :: ws
           end
  end.

Definition re_split (s : string) : list string := split_runs false s.

Definition mem_str (w : string) (l : list string) : bool :=
  existsb (String.eqb w) l.

(** A Python [set] of strings, given by its elements without
    repetition; the order carries no meaning. *)
Definition to_set (l : list string) : list string := nodup string_dec l.

(** A word as the filter can return it: no separator and no capital
    letter in it. *)
Fixpoint all_chars (p : ascii -> bool) (s : string) : bool :=
  match s with
  | EmptyString => true
  | String c s' => p c && all_chars p s'
  end.

Definition is_clean (w : string) : bool :=
  all_chars (fun c => negb (is_sep c) && negb (is_upper c)) w.

Section Stopwords.

(** [set(open("stopwords.txt").read().splitlines())] *)
Variable stopwords : list string.

Definition get_words (query : string) : list string :=
  let words := to_set (re_split (lower query)) in
  filter (fun w => negb (mem_str w stopwords)) words.

End Stopwords.

End Lexical.

(* ===================================================================== *)
(** * What a statement may do to the world *)
(* ===================================================================== *)

Module Frame.
Import Py Eff.

(** From [w] to [w'] nothing happened but at most [k] requests. *)
Definition only_requests (k : nat) (w w' : world) : Prop :=
  prompts w' = prompts w /\ stdout w' = stdout w /\
  exists reqs, requests w' = requests w ++ reqs /\
               (List.length reqs <= k)%nat.

(** The statement [m] does nothing but at most [k] requests, whether it
    returns or raises. *)
Definition performs {A} (k : nat) (m : M A) : Prop :=
  forall w, only_requests k w (snd (m w)).

End Frame.

(* ===================================================================== *)
(** * More concrete replies, for running the definitions *)
(* ===================================================================== *)

Module Replies.
Import Py Eff.
Local Open Scope string_scope.

(** A number of things has the unit ["1"], which names no entity. *)
Definition moons_value : list (string * json) :=
  [("amount", JStr "+146"); ("unit", JStr "1")].

Definition count_value : list (string * json) :=
  [("amount", JStr "+42")].

(** The main snak of a claim that states that there is no value. *)
Definition novalue_snak : list (string * json) :=
  [("snaktype", JStr "novalue"); ("property", JStr "P9")].

Definition claim_map : list (string * json) :=
  [("P1114", JList [Demo.statement (JDict moons_value) "quantity"]);
   ("P0", JList [Demo.statement (JDict count_value) "quantity"]);
   ("P7", JList []);
   ("P9", JList [JDict [("mainsnak", JDict novalue_snak)]])].

Definition claims : json :=
  JDict [("entities", JDict [("Q193", JDict [("claims", JDict claim_map)])])].

Definition error_reply : json :=
  JDict [("error", JDict [("code", JStr "no-such-entity")])].

Definition saturn_hit : json :=
  JDict [("id", JStr "Q193"); ("label", JStr "Saturn")].

Definition other_hit : json :=
  JDict [("id", JStr "Q1"); ("label", JStr "Saturn (mythology)")].

Definition hits : json := JDict [("search", JList [saturn_hit; other_hit])].

Definition sitelinks (id : string) (links : list (string * json)) : json :=
  JDict [("entities", JDict [(id, JDict [("sitelinks", JDict links)])])].

Definition saturn_links : list (string * json) :=
  [("dewiki", JDict [("title", JStr "Saturn (Planet)")]);
   ("enwiki", JDict [("title", JStr "Saturn")])].

Definition other_links : list (string * json) :=
  [("dewiki", JDict [("title", JStr "Saturn (Mythologie)")])].

Definition saturn_page : string * json :=
  ("44474", JDict [("pageid", JInt 44474);
                   ("extract", JStr "Saturn is the sixth planet from the Sun.")]).

Definition pages : json :=
  JDict [("query", JDict [("pages", JDict [saturn_page])])].

Definition property_hits : json :=
  JDict [("search", JList [JDict [("id", JStr "P2067")];
                           JDict [("id", JStr "P2046")]])].

Definition http_json (url : string) : option json :=
  if String.eqb url (Wikidata.claims_url "Q193") then Some claims
  else if String.eqb url (Wikidata.claims_url "Q0") then Some error_reply
  else if String.eqb url (Wikidata.label_url "1") then Some error_reply
  else if String.eqb url (Wikidata.search_url "Saturn") then Some hits
  else if String.eqb url (Wikidata.sitelinks_url Demo.py_repr (JStr "Q193"))
       then Some (sitelinks "Q193" saturn_links)
  else if String.eqb url (Wikidata.sitelinks_url Demo.py_repr (JStr "Q1"))
       then Some (sitelinks "Q1" other_links)
  else if String.eqb url (Wikidata.extract_url Demo.py_repr (JStr "Saturn"))
       then Some pages
  else if String.eqb url (Wikidata.search_prop_url "mass")
       then Some property_hits
  else if String.eqb url (Wikidata.search_prop_url "phlogiston")
       then Some (JDict [("search", JList [])])
  else None.

(** The entity recogniser finds Saturn in one query and nothing in the
    others. *)
Definition get_proper_nouns (query : string) : list string :=
  if String.eqb query "Tell me about Saturn" then ["Saturn"] else [].

(** The sentence splitter finds two sentences in one text and takes
    every other text for one sentence. *)
Definition sentences (text : string) : list string :=
  if String.eqb text "Saturn is a gas giant. It has rings."
  then ["Saturn is a gas giant."; "It has rings."]
  else [text].

Definition encode (s : string) (j : nat) : Q :=
  nth j (if String.eqb s "Tell me about Saturn" then [1; 0]
         else if String.eqb s "Saturn is a gas giant." then [3; 4]
         else if String.eqb s "It has rings." then [4; 3]
         else [0; 1])%Q 0%Q.

(** Two entities, the first with a summary of two sentences. *)
Definition two_sentence_pages : json :=
  JDict [("query", JDict [("pages", JDict [
    ("44474", JDict [("extract",
                      JStr "Saturn is a gas giant. It has rings.")])])])].

Definition http_rings (url : string) : option json :=
  if String.eqb url (Wikidata.extract_url Demo.py_repr (JStr "Saturn"))
  then Some two_sentence_pages
  else http_json url.

(** A stopword list, two candidate sentences about Mars, a session
    that names no entity, and the flags [--wikidata] alone. *)
Definition stop : list string := ["what"; "is"; "the"; "of"].

Definition mars : list string := ["Mars is a planet"; "Mars is red"].

Definition chat : list string := ["hello"; "how are you"].

Definition flags : Chat.args := Chat.mkArgs false true false.

End Replies.

(* ===================================================================== *)
(** * Properties *)
(* ===================================================================== *)

(** ** Strings *)

Module StringFacts.
Import Py.

Lemma split_nonempty (sep : ascii) (s : string) : split sep s <> [].
Proof.
  destruct s as [|c s]; simpl; [discriminate|].
  destruct (Ascii.eqb c sep); [discriminate|].
  destruct (split sep s); discriminate.
Qed.

Lemma split_without_sep (sep : ascii) (s : string) :
  mem_char sep s = false -> split sep s = [s].
Proof.
  induction s as [|c s IH]; simpl; intros H; [reflexivity|].
  apply orb_false_iff in H as [Hc Hs].
  rewrite Ascii.eqb_sym, Hc, (IH Hs). reflexivity.
Qed.

Lemma split_app_sep (sep : ascii) (p s : string) :
  exists w ws, split sep (p ++ String sep s) = (w :: ws) ++ split sep s.
Proof.
  induction p as [|c p (w & ws & IH)]; simpl.
  - rewrite Ascii.eqb_refl. exists EmptyString, []. reflexivity.
  - rewrite IH. destruct (Ascii.eqb c sep).
    + exists EmptyString, (w :: ws). reflexivity.
    + exists (String c w), ws. reflexivity.
Qed.

Lemma last_cons {A} (l : list A) (x z : A) : last (z :: l) x = last l z.
Proof.
  revert x z. induction l as [|a l IH]; intros x z; [reflexivity|].
  change (last (z :: a :: l) x) with (last (a :: l) x).
  rewrite (IH x a), (IH z a). reflexivity.
Qed.

Lemma last_item_app (l1 l2 : list string) :
  l2 <> [] -> last_item (l1 ++ l2) = last_item l2.
Proof.
  intros H. destruct l2 as [|y l2]; [contradiction|].
  induction l1 as [|x l1 IH]; [reflexivity|].
  simpl in *. destruct (l1 ++ y :: l2) as [|z l] eqn:E.
  - destruct l1; discriminate.
  - simpl in IH. rewrite <- IH, last_cons. reflexivity.
Qed.

Lemma last_item_split_uri (p s : string) :
  mem_char "/" s = false ->
  last_item (split "/" (p ++ String "/" s)) = ok s.
Proof.
  intros H. destruct (split_app_sep "/" p s) as (w & ws & ->).
  rewrite last_item_app by apply split_nonempty.
  rewrite (split_without_sep _ _ H). reflexivity.
Qed.

(** An amount with one sign character, as Wikidata writes them. *)
Lemma lstrip_plus_signed (c : ascii) (s : string) :
  Ascii.eqb c "+" = false ->
  lstrip "+" (String "+" (String c s)) = String c s.
Proof. intros H. simpl. rewrite H. reflexivity. Qed.

End StringFacts.

(** ** The knowledge-base client *)

Module WikidataFacts.
Import Py Eff Wikidata StringFacts.
Local Open Scope string_scope.

Lemma bind_ok {A B} (m : M A) (f : A -> M B) (w w' : world) (a : A) :
  m w = (ok a, w') -> bind m f w = f a w'.
Proof. intros H. unfold bind. rewrite H. reflexivity. Qed.

Section Client.
Variable http_json : string -> option json.

Lemma requests_get_json_some url j w :
  http_json url = Some j ->
  requests_get_json http_json url w = (ok j, log_request url w).
Proof. intros H. unfold requests_get_json. rewrite H. reflexivity. Qed.



(** C6.  When the claims of the entity hold no entry for the property,
    [get_prop_value] returns [None] and raises nothing; all it has done
    is the one request for the claims. *)
Theorem get_prop_value_no_claims (entity prop : string) (result : json)
  (claims : list (string * json)) (w : world) :
  http_json (claims_url entity) = Some result ->
  (ok result)@["entities"]@[entity]@["claims"] = ok (JDict claims) ->
  lookup prop claims = None ->
  get_prop_value http_json entity prop w =
  (ok JNull, log_request (claims_url entity) w).
Proof.
  intros Hget Hclaims Hprop.
  unfold get_prop_value.
  rewrite (bind_ok _ _ _ _ _ (requests_get_json_some _ _ _ Hget)).
  unfold first_claim. rewrite Hclaims. simpl. rewrite Hprop. reflexivity.
Qed.

Lemma add_unit_no_unit dv value w :
  lookup "unit" dv = None ->
  add_unit http_json (JDict dv) value w = (ok value, w).
Proof.
  intros H. unfold add_unit, except_KeyError, bind, lift, getitem.
  rewrite H. reflexivity.
Qed.

Lemma add_unit_label dv base u label w w' :
  lookup "unit" dv = Some u ->
  get_label http_json u w = (ok (JStr label), w') ->
  add_unit http_json (JDict dv) (JStr base) w =
  (ok (JStr (base ++ " " ++ label)), w').
Proof.
  intros H Hl. unfold add_unit, except_KeyError, bind, lift, getitem.
  rewrite H. unfold ok at 1. rewrite Hl. reflexivity.
Qed.

(** A unit whose label lookup raises [KeyError] (the unit ["1"] of a
    plain number names no entity) is dropped without a trace in the
    value. *)
Lemma add_unit_unresolved dv value u w w' :
  lookup "unit" dv = Some u ->
  get_label http_json u w = (throw KeyError, w') ->
  add_unit http_json (JDict dv) value w = (ok value, w').
Proof.
  intros H Hl. unfold add_unit, except_KeyError, bind, lift, getitem.
  rewrite H. unfold ok at 1. rewrite Hl. reflexivity.
Qed.

Lemma base_value_id dv i w :
  lookup "amount" dv = None -> lookup "time" dv = None ->
  lookup "id" dv = Some i ->
  base_value http_json (JDict dv) w = get_label http_json i w.
Proof.
  intros Ha Ht Hi. unfold base_value, bind, lift, contains, getitem.
  rewrite Ha, Ht, Hi. simpl.
  destruct (get_label http_json i w) as [[e|l] w']; reflexivity.
Qed.

Lemma get_prop_value_claim entity prop result claim dv w :
  http_json (claims_url entity) = Some result ->
  first_claim result entity prop = ok claim ->
  (ok claim)@["datavalue"]@["value"] = ok dv ->
  get_prop_value http_json entity prop w =
  (value <- base_value http_json dv ;; add_unit http_json dv value)
    (log_request (claims_url entity) w).
Proof.
  intros Hget Hclaim Hdv. unfold get_prop_value.
  rewrite (bind_ok _ _ _ _ _ (requests_get_json_some _ _ _ Hget)).
  rewrite Hclaim. unfold ok at 1.
  rewrite (bind_ok _ _ _ _ _ (f_equal (fun r => (r, _)) Hdv)).
  reflexivity.
Qed.

(** The label lookup succeeds when the service's reply to the label
    request holds an English label for the identifier: that label comes
    back. *)
Lemma get_label_found (ident seg : string) (reply label : json) (w : world) :
  last_item (split "/" ident) = ok seg ->
  http_json (label_url seg) = Some reply ->
  (ok reply)@["entities"]@[seg]@["labels"]@["en"]@["value"] = ok label ->
  get_label http_json (JStr ident) w =
  (ok label, log_request (label_url seg) w).
Proof.
  intros Hseg Hget Hlabel. unfold get_label.
  rewrite (bind_ok _ _ _ _ _ (f_equal (fun r => (r, w)) Hseg)).
  rewrite (bind_ok _ _ _ _ _ (requests_get_json_some _ _ _ Hget)).
  unfold lift. rewrite Hlabel. reflexivity.
Qed.

(** And it returns nothing else: a value that [get_label] returns is the
    English label that the service's reply holds for the text after the
    last [/] of the identifier, which must be a string. *)
Lemma get_label_returns (entity v : json) (w w' : world) :
  get_label http_json entity w = (ok v, w') ->
  exists ident seg reply,
    entity = JStr ident /\
    last_item (split "/" ident) = ok seg /\
    http_json (label_url seg) = Some reply /\
    (ok reply)@["entities"]@[seg]@["labels"]@["en"]@["value"] = ok v.
Proof.
  destruct entity as [| | | |ident| |]; try discriminate.
  unfold get_label, bind, lift, requests_get_json.
  destruct (last_item (split "/" ident)) as [e|seg] eqn:Hseg;
    [discriminate|].
  destruct (http_json (label_url seg)) as [reply|] eqn:Hget;
    [|discriminate].
  unfold ok at 1.
  destruct ((ok reply)@["entities"]@[seg]@["labels"]@["en"]@["value"])
    as [e|label] eqn:Hlabel; [discriminate|].
  intros H. injection H as <- _.
  exists ident, seg, reply. auto.
Qed.

(** What the unit step can return: the value as it is, or the value
    after [+=] with some suffix; the former when there is no unit. *)
Lemma add_unit_returns (dv : list (string * json)) (value v : json)
  (w w' : world) :
  add_unit http_json (JDict dv) value w = (ok v, w') ->
  (lookup "unit" dv = None -> v = value) /\
  (v = value \/ exists suffix, iadd_str value suffix = ok v).
Proof.
  unfold add_unit, except_KeyError, bind, lift, getitem.
  destruct (lookup "unit" dv) as [u|].
  - unfold ok at 1.
    destruct (get_label http_json u w) as [[e|l] w2].
    + destruct e; try discriminate.
      intros H. injection H as <- _. split; auto.
    + destruct (str_add " " l) as [e|suffix].
      * destruct e; try discriminate.
        intros H. injection H as <- _. split; auto.
      * destruct (iadd_str value suffix) as [e|x] eqn:E.
        -- destruct e; try discriminate.
           intros H. injection H as <- _. split; auto.
        -- intros H. injection H as <- _.
           split; [discriminate|]. right. exists suffix. exact E.
  - intros H. injection H as <- _. split; auto.
Qed.

(** C5.  When the value of the first claim is an entity reference (an
    object with an [id] and neither [amount] nor [time]), the identifier
    itself is never what comes back.  First, when the service's reply to
    the label request holds the English label of the identifier, that
    label is returned.  Second, whenever [get_prop_value] returns a
    value at all, the identifier is a string, the label request for it
    was answered, and the value is the English label in that answer
    (followed by the unit suffix when the value carries a unit): the
    text of the identifier can only come back if the service gives that
    very text as the label. *)
Theorem get_prop_value_id_label entity prop result claim dv i w :
  http_json (claims_url entity) = Some result ->
  first_claim result entity prop = ok claim ->
  (ok claim)@["datavalue"]@["value"] = ok (JDict dv) ->
  lookup "amount" dv = None -> lookup "time" dv = None ->
  lookup "id" dv = Some i ->
  (forall ident seg reply label,
     i = JStr ident ->
     last_item (split "/" ident) = ok seg ->
     http_json (label_url seg) = Some reply ->
     (ok reply)@["entities"]@[seg]@["labels"]@["en"]@["value"] = ok label ->
     lookup "unit" dv = None ->
     get_prop_value http_json entity prop w =
     (ok label,
      log_request (label_url seg) (log_request (claims_url entity) w)))
  /\
  (forall v w',
     get_prop_value http_json entity prop w = (ok v, w') ->
     exists ident seg reply label,
       i = JStr ident /\
       last_item (split "/" ident) = ok seg /\
       http_json (label_url seg) = Some reply /\
       (ok reply)@["entities"]@[seg]@["labels"]@["en"]@["value"] = ok label /\
       (lookup "unit" dv = None -> v = label) /\
       (v = label \/ exists suffix, iadd_str label suffix = ok v)).
Proof.
  intros Hget Hclaim Hdv Ha Ht Hi.
  rewrite (get_prop_value_claim _ _ _ _ _ _ Hget Hclaim Hdv).
  set (w1 := log_request (claims_url entity) w).
  unfold bind. rewrite (base_value_id _ _ _ Ha Ht Hi). split.
  - intros ident seg reply label -> Hseg Hreply Hlabel Hu.
    rewrite (get_label_found _ _ _ _ _ Hseg Hreply Hlabel).
    apply add_unit_no_unit, Hu.
  - intros v w' H.
    destruct (get_label http_json i w1) as [[e|label] w2] eqn:Hl;
      [discriminate|].
    destruct (get_label_returns _ _ _ _ Hl)
      as (ident & seg & reply & -> & Hseg & Hreply & Hlabel).
    destruct (add_unit_returns _ _ _ _ _ H) as [Hnone Hsome].
    exists ident, seg, reply, label. auto 7.
Qed.

(** C8.  [get_prop_value] follows the resolution rules: the amount
    without its leading [+], the time string, or the label of the
    referenced entity; and, when the value carries a unit, that value,
    one space and the label of the unit. *)
Theorem get_prop_value_resolution entity prop result claim dv base value
  w w2 w3 :
  http_json (claims_url entity) = Some result ->
  first_claim result entity prop = ok claim ->
  (ok claim)@["datavalue"]@["value"] = ok (JDict dv) ->
  resolved_base http_json dv (log_request (claims_url entity) w) base w2 ->
  resolved_unit http_json dv base w2 value w3 ->
  get_prop_value http_json entity prop w = (ok (JStr value), w3).
Proof.
  intros Hget Hclaim Hdv Hbase Hunit.
  rewrite (get_prop_value_claim _ _ _ _ _ _ Hget Hclaim Hdv).
  assert (Hb : base_value http_json (JDict dv)
                 (log_request (claims_url entity) w) = (ok (JStr base), w2)).
  { destruct Hbase as [a Ha | t Ha Ht | i label w' Ha Ht Hi Hl].
    - unfold base_value, bind, lift, contains, getitem. rewrite Ha. reflexivity.
    - unfold base_value, bind, lift, contains, getitem. rewrite Ha, Ht. reflexivity.
    - rewrite (base_value_id _ _ _ Ha Ht Hi). exact Hl. }
  rewrite (bind_ok _ _ _ _ _ Hb).
  destruct Hunit as [Hu | u label w' Hu Hl].
  - apply add_unit_no_unit, Hu.
  - apply (add_unit_label _ _ _ _ _ _ Hu Hl).
Qed.

(** C10.  A claim whose value is a plain string is not returned: every
    path through lines 100-110 indexes the string with a string key,
    which raises [TypeError], and [except KeyError] does not catch
    it. *)
Theorem get_prop_value_string_raises entity prop result claim s w :
  http_json (claims_url entity) = Some result ->
  first_claim result entity prop = ok claim ->
  (ok claim)@["datavalue"]@["value"] = ok (JStr s) ->
  get_prop_value http_json entity prop w =
  (throw TypeError, log_request (claims_url entity) w).
Proof.
  intros Hget Hclaim Hdv.
  rewrite (get_prop_value_claim _ _ _ _ _ _ Hget Hclaim Hdv).
  unfold base_value, add_unit, except_KeyError, bind, lift, contains, getitem.
  simpl. destruct (str_contains "amount" s); [reflexivity|].
  destruct (str_contains "time" s); [reflexivity|].
  destruct (str_contains "id" s); reflexivity.
Qed.

(** X17.  The fall-through branch does return an object that has none
    of the keys [amount], [time], [id] and [unit] as it is. *)
Lemma get_prop_value_other_object entity prop result claim dv w :
  http_json (claims_url entity) = Some result ->
  first_claim result entity prop = ok claim ->
  (ok claim)@["datavalue"]@["value"] = ok (JDict dv) ->
  lookup "amount" dv = None -> lookup "time" dv = None ->
  lookup "id" dv = None -> lookup "unit" dv = None ->
  get_prop_value http_json entity prop w =
  (ok (JDict dv), log_request (claims_url entity) w).
Proof.
  intros Hget Hclaim Hdv Ha Ht Hi Hu.
  rewrite (get_prop_value_claim _ _ _ _ _ _ Hget Hclaim Hdv).
  unfold base_value, bind, lift, contains. rewrite Ha, Ht, Hi. simpl.
  apply add_unit_no_unit, Hu.
Qed.

End Client.
End WikidataFacts.

(** ** The stable sort *)

Module SortFacts.
Import Py Ranker.

Lemma Qltb_lt (x y : Q) : Qltb x y = true <-> (x < y)%Q.
Proof.
  unfold Qltb. rewrite negb_true_iff. split; intros H.
  - apply Qnot_le_lt. intros Hle. apply Qle_bool_iff in Hle. congruence.
  - destruct (Qle_bool y x) eqn:E; [|reflexivity].
    apply Qle_bool_iff in E. exfalso. exact (Qlt_not_le _ _ H E).
Qed.

Lemma Qltb_ge (x y : Q) : Qltb x y = false <-> (y <= x)%Q.
Proof.
  unfold Qltb. rewrite negb_false_iff. apply Qle_bool_iff.
Qed.

Section Sort.
Context {A : Type} (key : A -> Q).

Lemma insert_perm (x : A) (l : list A) : Permutation (x :: l) (insert key x l).
Proof.
  induction l as [|y l IH]; simpl; [reflexivity|].
  destruct (Qltb (key x) (key y)); [reflexivity|].
  rewrite perm_swap. constructor. exact IH.
Qed.

Lemma insert_sorted (x : A) (l : list A) :
  StronglySorted (key_le key) l -> StronglySorted (key_le key) (insert key x l).
Proof.
  induction 1 as [|y l Hl IH Hy]; simpl.
  - repeat constructor.
  - destruct (Qltb (key x) (key y)) eqn:E.
    + apply Qltb_lt in E. constructor; [constructor; assumption|].
      constructor; [apply Qlt_le_weak, E|].
      eapply Forall_impl; [|exact Hy]. intros b Hb.
      unfold key_le in *. eapply Qle_trans; [apply Qlt_le_weak, E|exact Hb].
    + apply Qltb_ge in E. constructor; [exact IH|].
      eapply Permutation_Forall; [apply insert_perm|].
      constructor; assumption.
Qed.

(** Inserting into a sorted list keeps the relative order of the elements
    that [P] selects, when [P] selects elements of one key only. *)
Lemma insert_filter (P : A -> bool) (x : A) (l : list A) :
  StronglySorted (key_le key) l ->
  (forall b, In b l -> P x = true -> P b = true -> (key x == key b)%Q) ->
  filter P (insert key x l) = filter P l ++ filter P [x].
Proof.
  induction 1 as [|y l Hl IH Hy]; intros Hone; simpl; [reflexivity|].
  destruct (Qltb (key x) (key y)) eqn:E.
  - apply Qltb_lt in E. simpl. destruct (P x) eqn:Px.
    + assert (Hnone : forall b, In b (y :: l) -> P b = false).
      { intros b Hb. destruct (P b) eqn:Pb; [|reflexivity]. exfalso.
        assert (Hle : (key y <= key b)%Q).
        { destruct Hb as [<-|Hb]; [apply Qle_refl|].
          rewrite Forall_forall in Hy. apply Hy, Hb. }
        specialize (Hone b Hb eq_refl Pb).
        rewrite Hone in E. exact (Qlt_not_le _ _ E Hle). }
      rewrite (Hnone y (or_introl eq_refl)).
      replace (filter P l) with (@nil A); [reflexivity|].
      symmetry. clear -Hnone. induction l as [|b l IHl]; [reflexivity|].
      simpl. rewrite (Hnone b) by (right; left; reflexivity).
      apply IHl. intros c [<-|Hc]; apply Hnone; [left|right; right]; auto.
    + rewrite app_nil_r. reflexivity.
  - simpl. rewrite IH.
    + destruct (P y); reflexivity.
    + intros b Hb. apply Hone. right. exact Hb.
Qed.

Lemma insert_app_perm (x : A) (acc l : list A) :
  Permutation (insert key x acc ++ l) (acc ++ x :: l).
Proof.
  rewrite <- insert_perm. simpl. apply Permutation_middle.
Qed.

Lemma sorted_from_perm (l acc : list A) :
  Permutation (acc ++ l) (fold_left (fun acc x => insert key x acc) l acc).
Proof.
  revert acc. induction l as [|x l IH]; intros acc; simpl.
  - rewrite app_nil_r. reflexivity.
  - rewrite <- IH. symmetry. apply insert_app_perm.
Qed.

Lemma sorted_from_sorted (l acc : list A) :
  StronglySorted (key_le key) acc ->
  StronglySorted (key_le key) (fold_left (fun acc x => insert key x acc) l acc).
Proof.
  revert acc. induction l as [|x l IH]; intros acc H; simpl; [exact H|].
  apply IH, insert_sorted, H.
Qed.

Lemma sorted_from_filter (P : A -> bool) (l acc : list A) :
  StronglySorted (key_le key) acc ->
  (forall a b, In a (acc ++ l) -> In b (acc ++ l) ->
               P a = true -> P b = true -> (key a == key b)%Q) ->
  filter P (fold_left (fun acc x => insert key x acc) l acc) =
  filter P (acc ++ l).
Proof.
  revert acc. induction l as [|x l IH]; intros acc Hs Hone; simpl.
  - rewrite app_nil_r. reflexivity.
  - rewrite IH.
    + rewrite !filter_app. rewrite insert_filter; [|exact Hs|].
      * rewrite <- app_assoc. simpl. destruct (P x); reflexivity.
      * intros b Hb. apply Hone; apply in_or_app; [right; left|left]; auto.
    + apply insert_sorted, Hs.
    + intros a b Ha Hb. apply Hone.
      * eapply Permutation_in; [apply insert_app_perm|exact Ha].
      * eapply Permutation_in; [apply insert_app_perm|exact Hb].
Qed.

Lemma sorted_perm (l : list A) : Permutation l (sorted key l).
Proof. exact (sorted_from_perm l []). Qed.

Lemma sorted_sorted (l : list A) : StronglySorted (key_le key) (sorted key l).
Proof. apply sorted_from_sorted. constructor. Qed.

Lemma sorted_stable (P : A -> bool) (l : list A) :
  (forall a b, In a l -> In b l ->
               P a = true -> P b = true -> (key a == key b)%Q) ->
  filter P (sorted key l) = filter P l.
Proof.
  intros H. unfold sorted. rewrite sorted_from_filter; auto. constructor.
Qed.

End Sort.
End SortFacts.
(** ** The similarity ranker *)

Module RankerFacts.
Import Py Ranker SortFacts.

Lemma slice_to_prefix {A} (n : Z) (l : list A) :
  exists rest, l = slice_to n l ++ rest.
Proof.
  unfold slice_to. destruct (0 <=? n)%Z.
  - exists (skipn (Z.to_nat n) l). symmetry. apply firstn_skipn.
  - exists (skipn (List.length l - Z.to_nat (- n)) l).
    symmetry. apply firstn_skipn.
Qed.

Lemma slice_to_all {A} (n : Z) (l : list A) :
  (Z.of_nat (List.length l) <= n)%Z -> slice_to n l = l.
Proof.
  intros H. unfold slice_to.
  destruct (0 <=? n)%Z eqn:E; [|apply Z.leb_gt in E; lia].
  apply firstn_all2. lia.
Qed.

Lemma combine_map_self {A B} (f : A -> B) (l : list A) :
  combine (map f l) l = map (fun x => (f x, x)) l.
Proof. induction l as [|x l IH]; simpl; [|rewrite IH]; reflexivity. Qed.

Lemma filter_map_comm {A B} (f : A -> B) (P : B -> bool) (l : list A) :
  filter P (map f l) = map f (filter (fun x => P (f x)) l).
Proof.
  induction l as [|x l IH]; simpl; [reflexivity|].
  destruct (P (f x)); simpl; rewrite IH; reflexivity.
Qed.

Section Model.
Variable dim : nat.
Variable encode : string -> nat -> Q.
Variable empty_batch_cols : option nat.
Variable norm : list Q -> Q.

Notation embed := (embed dim encode).
Notation score := (score dim encode norm).
Notation get_topn_similar :=
  (get_topn_similar dim encode empty_batch_cols norm).

Notation scored := (scored dim encode norm).

Lemma embed_length (s : string) : List.length (embed s) = dim.
Proof. unfold Ranker.embed. rewrite length_map, length_seq. reflexivity. Qed.

Lemma get_topn_similar_single (anchor c : string) (n : Z) :
  get_topn_similar anchor [c] n = throw TypeError.
Proof.
  unfold Ranker.get_topn_similar, encode_list, cos_sim.
  rewrite embed_length, Nat.eqb_refl. reflexivity.
Qed.

Lemma get_topn_similar_ranked (anchor : string) (inputs : list string) (n : Z) :
  (2 <= List.length inputs)%nat ->
  get_topn_similar anchor inputs n =
  ok (map snd (slice_to n (sorted neg_score (scored anchor inputs)))).
Proof.
  intros H. destruct inputs as [|c1 [|c2 rest]]; simpl in H; try lia.
  unfold Ranker.get_topn_similar, encode_list, cos_sim.
  rewrite embed_length, Nat.eqb_refl.
  set (inputs := c1 :: c2 :: rest).
  unfold rbind at 1. unfold ok at 1.
  replace (np_squeeze _) with
    (Array1 (map (fun r => dot (embed anchor) r /
                   (norm (embed anchor) * norm (List.concat (map embed inputs))))%Q
                 (map embed inputs))) by reflexivity.
  unfold zip_scores, rbind, ok. rewrite map_map, combine_map_self.
  reflexivity.
Qed.

Lemma scored_snd (anchor : string) (inputs : list string) :
  map snd (scored anchor inputs) = inputs.
Proof.
  unfold Ranker.scored. rewrite map_map. simpl. apply map_id.
Qed.

Lemma scored_fst (anchor : string) (inputs : list string) :
  Forall (fun p => fst p = score anchor inputs (snd p)) (scored anchor inputs).
Proof.
  unfold Ranker.scored. apply Forall_forall. intros p Hp.
  apply in_map_iff in Hp as (c & <- & _). reflexivity.
Qed.

(** C3.  Ties keep the input order: for every score [v], the candidates
    of score [v] in the output are, in the same order, an initial
    segment of the candidates of score [v] in the input.  So of two
    candidates with equal scores the later one is never returned before
    or without the earlier one. *)
Theorem get_topn_similar_stable (anchor : string) (inputs : list string)
  (n : Z) :
  (2 <= List.length inputs)%nat ->
  exists out,
    get_topn_similar anchor inputs n = ok out /\
    forall v : Q,
      is_prefix (filter (fun c => Qeq_bool (score anchor inputs c) v) out)
                (filter (fun c => Qeq_bool (score anchor inputs c) v) inputs).
Proof.
  intros H. eexists. split; [apply get_topn_similar_ranked, H|].
  intros v.
  set (S := sorted neg_score (scored anchor inputs)).
  destruct (slice_to_prefix n S) as [rest Hrest].
  exists (map snd (filter (fun p => Qeq_bool (score anchor inputs (snd p)) v) rest)).
  replace (filter (fun c => Qeq_bool (score anchor inputs c) v) inputs)
    with (filter (fun c => Qeq_bool (score anchor inputs c) v)
            (map snd (scored anchor inputs)))
    by (rewrite scored_snd; reflexivity).
  rewrite !filter_map_comm, <- map_app, <- filter_app, <- Hrest.
  f_equal. symmetry. apply sorted_stable.
  intros a b Ha Hb Pa Pb.
  pose proof (scored_fst anchor inputs) as F. rewrite Forall_forall in F.
  unfold neg_score. rewrite (F a Ha), (F b Hb).
  apply Qeq_bool_iff in Pa, Pb. rewrite Pa, Pb. reflexivity.
Qed.

(** X5.  With at least two candidates and [n] at least their number,
    the result is a permutation of the candidates in non-increasing
    order of [score]. *)
Lemma get_topn_similar_all (anchor : string) (inputs : list string) (n : Z) :
  (2 <= List.length inputs)%nat ->
  (Z.of_nat (List.length inputs) <= n)%Z ->
  exists out,
    get_topn_similar anchor inputs n = ok out /\
    Permutation inputs out /\
    StronglySorted
      (fun c d => (score anchor inputs d <= score anchor inputs c)%Q) out.
Proof.
  intros H Hn. eexists. split; [apply get_topn_similar_ranked, H|].
  set (S := sorted neg_score (scored anchor inputs)).
  assert (HP : Permutation (scored anchor inputs) S) by apply sorted_perm.
  rewrite slice_to_all.
  2:{ rewrite <- (Permutation_length HP). unfold Ranker.scored.
      rewrite length_map. exact Hn. }
  split.
  - rewrite <- (scored_snd anchor inputs) at 1. apply Permutation_map, HP.
  - assert (F : Forall (fun p => fst p = score anchor inputs (snd p)) S).
    { eapply Permutation_Forall; [exact HP|apply scored_fst]. }
    assert (HS : StronglySorted (key_le neg_score) S) by apply sorted_sorted.
    clearbody S. clear HP.
    induction HS as [|p S HS IH Hp]; simpl; constructor.
    + apply IH. inversion F; assumption.
    + inversion F as [|? ? Fp FS]; subst.
      rewrite Forall_map. rewrite Forall_forall in *.
      intros q Hq. specialize (Hp q Hq). unfold key_le, neg_score in Hp.
      rewrite <- Fp, <- (FS q Hq).
      apply Qopp_le_compat in Hp. rewrite !Qopp_opp in Hp. exact Hp.
Qed.

Lemma get_topn_similar_zero (anchor : string) (inputs : list string) :
  (2 <= List.length inputs)%nat ->
  get_topn_similar anchor inputs 0 = ok [].
Proof.
  intros H. rewrite (get_topn_similar_ranked _ _ _ H). reflexivity.
Qed.

(** C2.  Asked for all the candidates of a one-element list,
    [get_topn_similar] raises [TypeError] instead of returning the
    candidate: [np.squeeze] turns the (1, 1) score matrix into a
    zero-dimensional array and [zip] cannot iterate over it. *)
Theorem get_topn_similar_all_of_one_raises (anchor c : string) :
  get_topn_similar anchor [c] (Z.of_nat (List.length [c])) = throw TypeError.
Proof. apply get_topn_similar_single. Qed.

(** C4.  With exactly one candidate, [get_topn_similar] raises
    [TypeError] for [n = 0] and for every [n] above the number of
    candidates. *)
Theorem get_topn_similar_single_raises (anchor c : string) :
  get_topn_similar anchor [c] 0 = throw TypeError /\
  forall n : Z, (Z.of_nat (List.length [c]) < n)%Z ->
    get_topn_similar anchor [c] n = throw TypeError.
Proof.
  split; [|intros n _]; apply get_topn_similar_single.
Qed.

End Model.

(** [cos_sim] divides by the norm of the whole candidate matrix, so it
    ranks by dot product: a long candidate can come before one that is
    better aligned with the anchor.  Here the norms are exact. *)
Example cos_sim_ranks_by_dot_product :
  let a := Ranker.embed 2 Demo.encode "What is Mars?" in
  let p := Ranker.embed 2 Demo.encode "Mars is a planet" in
  let r := Ranker.embed 2 Demo.encode "Mars is red" in
  Demo.get_topn_similar "What is Mars?" ["Mars is a planet"; "Mars is red"] 2
    = ok ["Mars is red"; "Mars is a planet"] /\
  (Ranker.cosine Demo.norm a r == 5 # 13)%Q /\
  (Ranker.cosine Demo.norm a p == 3 # 5)%Q /\
  (Demo.norm (p ++ r) * Demo.norm (p ++ r) == 169)%Q.
Proof. repeat split. Qed.

End RankerFacts.
(** ** The response generator and the loop *)

Module ChatFacts.
Import Py Eff Chat.
Local Open Scope string_scope.

Lemma mem_char_app (c : ascii) (a b : string) :
  mem_char c (a ++ b) = mem_char c a || mem_char c b.
Proof.
  induction a as [|x a IH]; simpl; [reflexivity|].
  rewrite IH, orb_assoc. reflexivity.
Qed.

Lemma mem_char_join (c : ascii) (sep : string) (l : list string) :
  mem_char c sep = false ->
  Forall (fun s => mem_char c s = false) l ->
  mem_char c (join sep l) = false.
Proof.
  intros Hsep. induction 1 as [|x l Hx Hl IH]; [reflexivity|].
  destruct l as [|y l]; [exact Hx|].
  change (join sep (x :: y :: l)) with (x ++ sep ++ join sep (y :: l)).
  rewrite !mem_char_app, Hx, Hsep, IH. reflexivity.
Qed.

(** A pattern cannot start inside a string that lacks its first
    character. *)
Lemma str_contains_skip (c : ascii) (p a b : string) :
  mem_char c a = false ->
  str_contains (String c p) (a ++ b) = str_contains (String c p) b.
Proof.
  induction a as [|x a IH]; intros H; [reflexivity|].
  simpl in H. apply orb_false_iff in H as [Hx Ha].
  change (str_contains (String c p) (String x a ++ b))
    with (starts_with (String c p) (String x (a ++ b))
          || str_contains (String c p) (a ++ b)).
  simpl starts_with. rewrite Hx, (IH Ha). reflexivity.
Qed.

(** With no knowledge, the knowledge marker is in the prompt only if the
    instruction or a turn brings it: when neither holds an opening
    bracket, it is not there. *)
Lemma generate_query_no_marker (instruction : string) (dialog : list string) :
  mem_char "[" instruction = false ->
  Forall (fun t => mem_char "[" t = false) dialog ->
  str_contains "[KNOWLEDGE] " (generate_query instruction EmptyString dialog)
  = false.
Proof.
  intros Hi Hd. unfold generate_query.
  change (negb (EmptyString =? EmptyString)) with false. cbv iota.
  rewrite (str_contains_skip "[" _ _ _ Hi).
  change (str_contains "[KNOWLEDGE] "
            (" [CONTEXT] " ++ join " EOS " dialog ++ " " ++ EmptyString))
    with (str_contains "[KNOWLEDGE] "
            (join " EOS " dialog ++ " " ++ EmptyString)).
  rewrite str_contains_skip; [reflexivity|].
  apply mem_char_join; [reflexivity|exact Hd].
Qed.

Section Script.
Variable http_json : string -> option json.
Variable py_repr : json -> string.
Variable dim : nat.
Variable encode : string -> nat -> Q.
Variable empty_batch_cols : option nat.
Variable norm : list Q -> Q.
Variable get_proper_nouns : string -> list string.
Variable sentences : string -> list string.
Variable decode : string -> nat -> string -> string.

Notation generate := (generate decode).
Notation turn :=
  (turn http_json py_repr dim encode empty_batch_cols norm get_proper_nouns
     sentences decode).
Notation loop :=
  (loop http_json py_repr dim encode empty_batch_cols norm get_proper_nouns
     sentences decode).
Notation main :=
  (main http_json py_repr dim encode empty_batch_cols norm get_proper_nouns
     sentences decode).


Lemma turn_plain (a : args) (query : string) (dialog : list string)
  (w : world) :
  wikidata a = false ->
  exists w',
    turn a query dialog w = (ok tt, w') /\
    requests w' = requests w /\
    prompts w' =
      (prompts w ++ [generate_query instruction EmptyString (slice_to 500 dialog)])%list.
Proof.
  intros Hw. unfold Chat.turn. rewrite Hw.
  destruct (verbose a); eexists; (split; [reflexivity|split; reflexivity]).
Qed.

Lemma loop_plain (a : args) (stdin dialog : list string) (w : world) :
  wikidata a = false ->
  exists w',
    loop a stdin dialog w = (throw EOFError, w') /\
    requests w' = requests w /\
    prompts w' =
      (prompts w ++
       map (fun k => generate_query instruction EmptyString
                       (slice_to 500 (dialog ++ firstn (S k) stdin)%list))
           (seq 0 (List.length stdin)))%list.
Proof.
  intros Hw. revert dialog w.
  induction stdin as [|query rest IH]; intros dialog w.
  - eexists. split; [reflexivity|]. split; [reflexivity|].
    simpl. rewrite app_nil_r. reflexivity.
  - destruct (turn_plain a query (dialog ++ [query])%list
                (log_stdout "You: " w) Hw)
      as (w1 & Ht & Hr1 & Hp1).
    destruct (IH (dialog ++ [query])%list w1) as (w2 & Hl & Hr2 & Hp2).
    exists w2. split; [|split].
    + simpl. unfold bind at 1. unfold print at 1.
      unfold bind at 1. rewrite Ht. exact Hl.
    + rewrite Hr2, Hr1. reflexivity.
    + rewrite Hp2, Hp1. simpl. rewrite <- app_assoc. simpl.
      f_equal. f_equal. rewrite <- seq_shift, map_map.
      apply map_ext. intros k. simpl. rewrite <- app_assoc. reflexivity.
Qed.

(** C1.  After 501 turns the loop hands [dialog[:500]] to [generate]:
    the 500 oldest turns.  The prompt of the 501st call is built from
    turns 0 to 499; turn 500, the query being answered, is not in it,
    and it is not the prompt of the 500 most recent turns. *)
Theorem history_after_501_turns (large verbose : bool) :
  let a := mkArgs large false verbose in
  let stdin := Demo.turns 501 in
  let w := snd (main a stdin empty_world) in
  nth_error (prompts w) 500 =
    Some (generate_query instruction EmptyString (firstn 500 stdin)) /\
  ~ In "turn 500" (firstn 500 stdin) /\
  firstn 500 stdin <> skipn 1 stdin /\
  nth_error (prompts w) 500 <>
    Some (generate_query instruction EmptyString (skipn 1 stdin)).
Proof.
  intros a stdin w.
  assert (Hw : exists ps, prompts w = ps /\ nth_error ps 500 =
             Some (generate_query instruction EmptyString (firstn 500 stdin))).
  { subst w. generalize (eq_refl : List.length stdin = 501%nat).
    generalize (eq_refl : firstn 500 (firstn 501 stdin) = firstn 500 stdin).
    generalize stdin. clear stdin. intros stdin Hf Hlen.
    destruct (loop_plain a stdin []
                (log_stdout ("Loading " ++ model_name_of a ++ "...") empty_world)
                eq_refl) as (w' & Hl & _ & Hp).
    exists (prompts w'). split.
    - unfold Chat.main, bind, print. rewrite Hl. reflexivity.
    - rewrite Hp, Hlen.
      change (prompts (log_stdout _ empty_world)) with (@nil string).
      rewrite app_nil_l, nth_error_map.
      change (nth_error (seq 0 501) 500) with (Some 500%nat).
      cbn [option_map app]. unfold slice_to.
      change (0 <=? 500)%Z with true. cbv iota.
      change (Z.to_nat 500) with 500%nat. rewrite Hf. reflexivity. }
  destruct Hw as (ps & -> & ->). clear w ps.
  split; [reflexivity|]. split; [|split].
  - intros H.
    assert (Hex : existsb (String.eqb "turn 500") (firstn 500 stdin) = true).
    { apply existsb_exists. eexists. split; [exact H|apply String.eqb_refl]. }
    vm_compute in Hex. discriminate.
  - intros H. apply (f_equal (fun l => hd EmptyString l)) in H.
    vm_compute in H. discriminate.
  - intros H.
    apply (f_equal (fun o => match o with
                             | Some s => String.eqb s
                                 (generate_query instruction EmptyString
                                    (skipn 1 (Demo.turns 501)))
                             | None => false
                             end)) in H.
    vm_compute in H. discriminate.
Qed.

End Script.
End ChatFacts.

(** ** The theorems at the concrete services *)

Module Witnesses.
Import Py Eff Wikidata Ranker.
Local Open Scope string_scope.


Lemma get_prop_value_no_claims_witness :
  lookup "P9999" Demo.saturn_claim_map = None /\
  get_prop_value Demo.http_json "Q193" "P9999" empty_world =
  (ok JNull, log_request (claims_url "Q193") empty_world).
Proof.
  split; [reflexivity|].
  apply (WikidataFacts.get_prop_value_no_claims Demo.http_json "Q193" "P9999"
           Demo.saturn_claims Demo.saturn_claim_map empty_world);
    reflexivity.
Defined.

Lemma get_prop_value_id_label_witness :
  get_prop_value Demo.http_json "Q193" "P31" empty_world =
  (ok (JStr "planet"), mkWorld [claims_url "Q193"; label_url "Q634"] [] [])
  /\ JStr "planet" <> JStr "Q634".
Proof.
  split; [|discriminate].
  apply (proj1 (WikidataFacts.get_prop_value_id_label Demo.http_json
                  "Q193" "P31" Demo.saturn_claims
                  (Demo.mainsnak (JDict Demo.instance_value)
                     "wikibase-entityid")
                  Demo.instance_value (JStr "Q634") empty_world
                  eq_refl eq_refl eq_refl eq_refl eq_refl eq_refl)
           "Q634" "Q634" (Demo.label_response "Q634" "planet")
           (JStr "planet"));
    reflexivity.
Defined.

Lemma get_prop_value_resolution_witness :
  get_prop_value Demo.http_json "Q193" "P2067" empty_world =
  (ok (JStr "568360 yottagram"),
   mkWorld [claims_url "Q193"; label_url "Q613726"] [] []).
Proof.
  apply (WikidataFacts.get_prop_value_resolution Demo.http_json "Q193" "P2067"
           Demo.saturn_claims (Demo.mainsnak (JDict Demo.mass_value) "quantity")
           Demo.mass_value "568360" "568360 yottagram" empty_world
           (log_request (claims_url "Q193") empty_world)
           (mkWorld [claims_url "Q193"; label_url "Q613726"] [] []));
    try reflexivity.
  - apply (Resolved_amount Demo.http_json Demo.mass_value _ "+568360").
    reflexivity.
  - apply (Resolved_with_unit Demo.http_json Demo.mass_value "568360" _
             (JStr "http://www.wikidata.org/entity/Q613726") "yottagram");
      reflexivity.
Defined.

Lemma get_prop_value_string_raises_witness :
  get_prop_value Demo.http_json "Q193" "P1036" empty_world =
  (throw TypeError, log_request (claims_url "Q193") empty_world).
Proof.
  apply (WikidataFacts.get_prop_value_string_raises Demo.http_json "Q193"
           "P1036" Demo.saturn_claims
           (Demo.mainsnak (JStr "523.46") "string") "523.46" empty_world);
    reflexivity.
Defined.

Lemma get_topn_similar_stable_witness :
  let inputs := ["Mars is a planet"; "The sun is hot"; "Mars is a planet"] in
  (2 <= List.length inputs)%nat /\
  exists out,
    Demo.get_topn_similar "What is Mars?" inputs 2 = ok out /\
    forall v : Q,
      is_prefix
        (filter (fun c => Qeq_bool
                   (score 2 Demo.encode Demo.norm "What is Mars?" inputs c) v)
           out)
        (filter (fun c => Qeq_bool
                   (score 2 Demo.encode Demo.norm "What is Mars?" inputs c) v)
           inputs).
Proof.
  intros inputs. split; [apply le_S, le_n|].
  apply (RankerFacts.get_topn_similar_stable 2 Demo.encode None Demo.norm
           "What is Mars?" inputs 2).
  apply le_S, le_n.
Defined.

End Witnesses.

(** ** The lexical filter *)

Module LexicalFacts.
Import Py Lexical.

Lemma lower_char_not_upper (c : ascii) : is_upper (lower_char c) = false.
Proof. destruct c as [[] [] [] [] [] [] [] []]; reflexivity. Qed.

Lemma lower_char_sep (c : ascii) : is_sep (lower_char c) = is_sep c.
Proof. destruct c as [[] [] [] [] [] [] [] []]; reflexivity. Qed.

Lemma lower_app (a b : string) : lower (a ++ b) = (lower a ++ lower b)%string.
Proof. induction a as [|c a IH]; simpl; [|rewrite IH]; reflexivity. Qed.

Lemma lower_no_upper (s : string) :
  all_chars (fun c => negb (is_upper c)) (lower s) = true.
Proof.
  induction s as [|c s IH]; simpl; [reflexivity|].
  rewrite lower_char_not_upper, IH. reflexivity.
Qed.

Lemma lower_keeps_nonsep (s : string) :
  all_chars (fun c => negb (is_sep c)) s = true ->
  all_chars (fun c => negb (is_sep c)) (lower s) = true.
Proof.
  induction s as [|c s IH]; simpl; [reflexivity|].
  intros H. apply andb_true_iff in H as [Hc Hs].
  rewrite lower_char_sep, Hc, (IH Hs). reflexivity.
Qed.

Lemma split_runs_nonempty (b : bool) (s : string) : split_runs b s <> [].
Proof.
  revert b. induction s as [|c s IH]; intros b; simpl; [discriminate|].
  destruct (is_sep c).
  - destruct b; [apply IH|discriminate].
  - destruct (split_runs false s); discriminate.
Qed.

(** Every piece is free of separators and made of characters on which
    [p] holds when [p] holds on the whole string. *)
Lemma split_runs_pieces (p : ascii -> bool) (b : bool) (s : string) :
  all_chars p s = true ->
  Forall (fun w => all_chars (fun c => negb (is_sep c) && p c) w = true)
         (split_runs b s).
Proof.
  revert b. induction s as [|c s IH]; intros b H; simpl in *.
  - repeat constructor.
  - apply andb_true_iff in H as [Hc Hs].
    destruct (is_sep c) eqn:E.
    + destruct b; [apply IH, Hs|]. constructor; [reflexivity|apply IH, Hs].
    + specialize (IH false Hs).
      destruct (split_runs false s) as [|w ws].
      * repeat constructor. simpl. rewrite E, Hc. reflexivity.
      * inversion IH as [|? ? Hw Hws]; subst. constructor; [|exact Hws].
        simpl. rewrite E, Hc, Hw. reflexivity.
Qed.

Lemma mem_str_In (w : string) (l : list string) :
  mem_str w l = true <-> In w l.
Proof.
  unfold mem_str. rewrite existsb_exists. split.
  - intros (x & Hx & E). apply String.eqb_eq in E. subst. exact Hx.
  - intros H. exists w. split; [exact H|apply String.eqb_refl].
Qed.

Lemma get_words_In (stopwords : list string) (query w : string) :
  In w (get_words stopwords query) <->
  In w (re_split (lower query)) /\ mem_str w stopwords = false.
Proof.
  unfold get_words, to_set. rewrite filter_In, nodup_In, negb_true_iff.
  reflexivity.
Qed.

(** X1.  The words returned hold no separator and no capital letter, and none
    of them is a stopword. *)
Theorem get_words_clean (stopwords : list string) (query : string) :
  Forall (fun w => is_clean w = true /\ mem_str w stopwords = false)
         (get_words stopwords query).
Proof.
  apply Forall_forall. intros w Hw. apply get_words_In in Hw as [Hw Hs].
  split; [|exact Hs].
  pose proof (split_runs_pieces _ false _ (lower_no_upper query)) as F.
  rewrite Forall_forall in F. exact (F w Hw).
Qed.

(** The set holds each word once. *)
Lemma get_words_NoDup (stopwords : list string) (query : string) :
  NoDup (get_words stopwords query).
Proof. apply NoDup_filter, NoDup_nodup. Qed.

Lemma In_tail {A} (x : A) (l : list A) : In x (tl l) -> In x l.
Proof. destruct l; simpl; auto. Qed.

Lemma split_runs_sep (b : bool) (c : ascii) (s : string) :
  is_sep c = true ->
  split_runs b (String c s) =
  if b then split_runs true s else EmptyString :: split_runs true s.
Proof. intros H. simpl. rewrite H. reflexivity. Qed.

Lemma split_runs_nonsep (b : bool) (c : ascii) (s : string) :
  is_sep c = false ->
  exists w ws, split_runs false s = w :: ws /\
               split_runs b (String c s) = String c w :: ws.
Proof.
  intros H. simpl. rewrite H.
  destruct (split_runs false s) as [|w ws] eqn:E.
  - exfalso. exact (split_runs_nonempty _ _ E).
  - exists w, ws. auto.
Qed.

Lemma split_runs_word (b : bool) (w rest : string) (c s : ascii) :
  is_sep c = false -> is_sep s = true ->
  all_chars (fun c => negb (is_sep c)) w = true ->
  split_runs b (String c w ++ String s rest) =
  String c w :: split_runs true rest.
Proof.
  intros Hc Hs. revert b c Hc. induction w as [|d w IH]; intros b c Hc Hw.
  - simpl. rewrite Hc, Hs. reflexivity.
  - simpl in Hw. apply andb_true_iff in Hw as [Hd Hw].
    apply negb_true_iff in Hd.
    change (String c (String d w) ++ String s rest)%string
      with (String c (String d w ++ String s rest)).
    destruct (split_runs_nonsep b c (String d w ++ String s rest) Hc)
      as (x & ws & E1 & E2).
    rewrite E2. rewrite (IH false d Hd Hw) in E1.
    injection E1 as <- <-. reflexivity.
Qed.

Lemma split_runs_between (a w rest : string) (c s1 s2 : ascii) :
  is_sep s1 = true -> is_sep s2 = true -> is_sep c = false ->
  all_chars (fun c => negb (is_sep c)) w = true ->
  In (String c w)
     (tl (split_runs false (a ++ String s1 (String c w ++ String s2 rest))))
  /\ In (String c w)
        (split_runs true (a ++ String s1 (String c w ++ String s2 rest))).
Proof.
  intros H1 H2 Hc Hw. induction a as [|d a [IHf IHt]].
  - change (EmptyString ++ String s1 (String c w ++ String s2 rest))%string
      with (String s1 (String c w ++ String s2 rest)).
    rewrite !(split_runs_sep _ _ _ H1).
    rewrite (split_runs_word true _ _ _ _ Hc H2 Hw). simpl. auto.
  - change (String d a ++ String s1 (String c w ++ String s2 rest))%string
      with (String d (a ++ String s1 (String c w ++ String s2 rest))).
    set (r := (a ++ String s1 (String c w ++ String s2 rest))%string) in *.
    destruct (is_sep d) eqn:Ed.
    + rewrite !(split_runs_sep _ _ _ Ed). split; exact IHt.
    + destruct (split_runs_nonsep false d r Ed) as (x & ws & E1 & E2).
      destruct (split_runs_nonsep true d r Ed) as (x' & ws' & E1' & E2').
      rewrite E2, E2'. rewrite E1 in IHf, E1'. injection E1' as <- <-.
      simpl in *. auto.
Qed.

(** X2.  A word that stands between two separators of the query is returned
    in lower case, unless that is a stopword. *)
Theorem get_words_between (stopwords : list string) (a w rest : string)
  (c s1 s2 : ascii) :
  is_sep s1 = true -> is_sep s2 = true -> is_sep c = false ->
  all_chars (fun c => negb (is_sep c)) w = true ->
  mem_str (lower (String c w)) stopwords = false ->
  In (lower (String c w))
     (get_words stopwords (a ++ String s1 (String c w ++ String s2 rest))).
Proof.
  intros H1 H2 Hc Hw Hs. apply get_words_In. split; [|exact Hs].
  unfold re_split. rewrite lower_app. simpl lower. rewrite lower_app.
  simpl lower. apply In_tail.
  apply split_runs_between.
  - rewrite lower_char_sep. exact H1.
  - rewrite lower_char_sep. exact H2.
  - rewrite lower_char_sep. exact Hc.
  - apply lower_keeps_nonsep, Hw.
Qed.

Lemma split_runs_trailing (s : string) (c : ascii) :
  is_sep c = true ->
  In EmptyString (tl (split_runs false (s ++ String c EmptyString)))
  /\ In EmptyString (split_runs true (s ++ String c EmptyString)).
Proof.
  intros Hc. induction s as [|d s [IHf IHt]].
  - change (EmptyString ++ String c EmptyString)%string
      with (String c EmptyString).
    rewrite !(split_runs_sep _ _ _ Hc). simpl. auto.
  - change (String d s ++ String c EmptyString)%string
      with (String d (s ++ String c EmptyString)).
    set (r := (s ++ String c EmptyString)%string) in *.
    destruct (is_sep d) eqn:Ed.
    + rewrite !(split_runs_sep _ _ _ Ed). split; exact IHt.
    + destruct (split_runs_nonsep false d r Ed) as (x & ws & E1 & E2).
      destruct (split_runs_nonsep true d r Ed) as (x' & ws' & E1' & E2').
      rewrite E2, E2'. rewrite E1 in IHf, E1'. injection E1' as <- <-.
      simpl in *. auto.
Qed.

(** X3.  A query that begins or ends with a separator (a final question mark,
    say) yields the empty word, unless the stopword list has an empty
    line. *)
Theorem get_words_empty_word (stopwords : list string) (s : string)
  (c : ascii) :
  is_sep c = true ->
  mem_str EmptyString stopwords = false ->
  In EmptyString (get_words stopwords (s ++ String c EmptyString)) /\
  In EmptyString (get_words stopwords (String c s)).
Proof.
  intros Hc Hs. split; apply get_words_In; (split; [|exact Hs]).
  - unfold re_split. rewrite lower_app.
    apply In_tail.
    apply split_runs_trailing. simpl. rewrite lower_char_sep. exact Hc.
  - unfold re_split. simpl. rewrite lower_char_sep, Hc. left. reflexivity.
Qed.

(** X4.  A stopword that holds a capital letter or a separator filters
    nothing: the words are compared after lowering and splitting. *)
Theorem get_words_dead_stopword (stopwords : list string) (x query : string) :
  is_clean x = false ->
  get_words (x :: stopwords) query = get_words stopwords query.
Proof.
  intros Hx. unfold get_words. apply filter_ext_in. intros w Hw.
  unfold to_set in Hw. apply nodup_In in Hw.
  pose proof (split_runs_pieces _ false _ (lower_no_upper query)) as F.
  rewrite Forall_forall in F. specialize (F w Hw).
  simpl. destruct (String.eqb w x) eqn:E; [|reflexivity].
  apply String.eqb_eq in E. subst. unfold is_clean in Hx. congruence.
Qed.

End LexicalFacts.

(** ** More on the similarity ranker *)

Module RankerMore.
Import Py Ranker SortFacts RankerFacts.

Lemma insert_map {A B} (key : B -> Q) (f : A -> B) (x : A) (l : list A) :
  insert key (f x) (map f l) = map f (insert (fun a => key (f a)) x l).
Proof.
  induction l as [|y l IH]; simpl; [reflexivity|].
  destruct (Qltb (key (f x)) (key (f y))); simpl; [|rewrite IH]; reflexivity.
Qed.

Lemma sorted_map {A B} (key : B -> Q) (f : A -> B) (l : list A) :
  sorted key (map f l) = map f (sorted (fun a => key (f a)) l).
Proof.
  unfold sorted. change (@nil B) with (map f []).
  generalize (@nil A). induction l as [|x l IH]; intros acc; simpl.
  - reflexivity.
  - rewrite insert_map. apply IH.
Qed.

Lemma slice_to_map {A B} (f : A -> B) (n : Z) (l : list A) :
  slice_to n (map f l) = map f (slice_to n l).
Proof.
  unfold slice_to. rewrite length_map.
  destruct (0 <=? n)%Z; apply firstn_map.
Qed.

Section Model.
Variable dim : nat.
Variable encode : string -> nat -> Q.
Variable empty_batch_cols : option nat.
Variable norm : list Q -> Q.

Notation embed := (embed dim encode).
Notation score := (score dim encode norm).
Notation get_topn_similar :=
  (get_topn_similar dim encode empty_batch_cols norm).

(** With two candidates or more, the result is the candidates in the
    stable order of descending score, cut by [[:n]]. *)
Lemma get_topn_similar_by_score (anchor : string) (inputs : list string)
  (n : Z) :
  (2 <= List.length inputs)%nat ->
  get_topn_similar anchor inputs n =
  ok (slice_to n (sorted (fun c => (- score anchor inputs c)%Q) inputs)).
Proof.
  intros H. rewrite (get_topn_similar_ranked _ _ _ _ _ _ _ H).
  unfold Ranker.scored. rewrite sorted_map, slice_to_map, map_map.
  simpl. rewrite map_id. reflexivity.
Qed.

(** X7.  Asking for fewer candidates gives the beginning of what asking for
    more gives, and [min n (len inputs)] candidates come back. *)
Theorem get_topn_similar_prefix (anchor : string) (inputs : list string)
  (n m : Z) :
  (2 <= List.length inputs)%nat ->
  (0 <= n <= m)%Z ->
  exists top_n top_m,
    get_topn_similar anchor inputs n = ok top_n /\
    get_topn_similar anchor inputs m = ok top_m /\
    top_n = firstn (Z.to_nat n) top_m /\
    List.length top_n = Nat.min (Z.to_nat n) (List.length inputs).
Proof.
  intros H [Hn Hm]. do 2 eexists.
  split; [apply get_topn_similar_by_score, H|].
  split; [apply get_topn_similar_by_score, H|].
  set (L := sorted _ inputs).
  assert (HL : List.length L = List.length inputs).
  { symmetry. apply Permutation_length, sorted_perm. }
  unfold slice_to.
  destruct (0 <=? n)%Z eqn:En; [|apply Z.leb_gt in En; lia].
  destruct (0 <=? m)%Z eqn:Em; [|apply Z.leb_gt in Em; lia].
  split.
  - rewrite firstn_firstn. f_equal. lia.
  - rewrite length_firstn, HL. reflexivity.
Qed.

(** X8.  A negative [n] does not raise: the [-n] lowest-ranked candidates are
    left out. *)
Theorem get_topn_similar_negative (anchor : string) (inputs : list string)
  (n : Z) :
  (2 <= List.length inputs)%nat ->
  (n < 0)%Z ->
  exists ranking,
    get_topn_similar anchor inputs (Z.of_nat (List.length inputs))
      = ok ranking /\
    get_topn_similar anchor inputs n =
      ok (firstn (List.length inputs - Z.to_nat (- n)) ranking).
Proof.
  intros H Hn. eexists.
  split; [apply get_topn_similar_by_score, H|].
  rewrite (get_topn_similar_by_score _ _ _ H). f_equal.
  set (L := sorted _ inputs).
  assert (HL : List.length L = List.length inputs).
  { symmetry. apply Permutation_length, sorted_perm. }
  rewrite (slice_to_all (Z.of_nat (List.length inputs)) L) by lia.
  unfold slice_to.
  destruct (0 <=? n)%Z eqn:En; [apply Z.leb_le in En; lia|].
  rewrite HL. reflexivity.
Qed.

(** X9.  An empty candidate list: the outcome is settled by the array that
    the encoder returns for an empty batch.  Only a two-dimensional
    array of [dim] columns gives the empty result; the other shapes make
    [matmul] raise [ValueError] (or, for [dim = 0], [zip] raise
    [TypeError]). *)
Theorem get_topn_similar_no_candidate (anchor : string) (n : Z) :
  get_topn_similar anchor [] n =
  match empty_batch_cols with
  | Some cols => if Nat.eqb dim cols then ok [] else throw ValueError
  | None => if Nat.eqb dim 0 then throw TypeError else throw ValueError
  end.
Proof.
  unfold Ranker.get_topn_similar, encode_list, cos_sim.
  rewrite embed_length. destruct empty_batch_cols as [cols|]; simpl.
  - destruct (Nat.eqb dim cols); [|reflexivity].
    simpl. unfold slice_to. destruct (0 <=? n)%Z; simpl.
    + rewrite firstn_nil. reflexivity.
    + reflexivity.
  - destruct (Nat.eqb dim 0); reflexivity.
Qed.

End Model.
End RankerMore.

(** ** The effects of the knowledge-base client *)

Module FrameFacts.
Import Py Eff Frame.

Lemma only_requests_refl (k : nat) (w : world) : only_requests k w w.
Proof.
  repeat split. exists []. rewrite app_nil_r. split; [reflexivity|].
  simpl. lia.
Qed.

Lemma only_requests_trans (k1 k2 k : nat) (w1 w2 w3 : world) :
  (k1 + k2 <= k)%nat ->
  only_requests k1 w1 w2 -> only_requests k2 w2 w3 ->
  only_requests k w1 w3.
Proof.
  intros Hk (P1 & S1 & r1 & R1 & L1) (P2 & S2 & r2 & R2 & L2).
  split; [congruence|]. split; [congruence|].
  exists (r1 ++ r2). rewrite R2, R1, app_assoc. split; [reflexivity|].
  rewrite length_app. lia.
Qed.

Lemma only_requests_log (url : string) (w : world) :
  only_requests 1 w (log_request url w).
Proof.
  repeat split. exists [url]. split; [reflexivity|]. simpl. lia.
Qed.

Lemma performs_le {A} (k1 k2 : nat) (m : M A) :
  (k1 <= k2)%nat -> performs k1 m -> performs k2 m.
Proof.
  intros H Hm w. eapply only_requests_trans with (k2 := 0%nat);
    [|apply Hm|apply only_requests_refl]. lia.
Qed.

Lemma performs_lift {A} (r : res A) : performs 0 (lift r).
Proof. intros w. apply only_requests_refl. Qed.

Lemma performs_ret {A} (a : A) : performs 0 (ret a).
Proof. intros w. apply only_requests_refl. Qed.

Lemma performs_raise {A} (e : exn) : performs 0 (@raise A e).
Proof. intros w. apply only_requests_refl. Qed.

Lemma performs_bind {A B} (k1 k2 : nat) (m : M A) (f : A -> M B) :
  performs k1 m -> (forall a, performs k2 (f a)) ->
  performs (k1 + k2) (bind m f).
Proof.
  intros Hm Hf w. unfold bind. specialize (Hm w).
  destruct (m w) as [[e|a] w1]; simpl in *.
  - eapply only_requests_trans with (k2 := 0%nat);
      [|exact Hm|apply only_requests_refl]. lia.
  - eapply only_requests_trans; [|exact Hm|apply Hf]. lia.
Qed.

Lemma performs_except {A} (k1 k2 : nat) (body handler : M A) :
  performs k1 body -> performs k2 handler ->
  performs (k1 + k2) (except_KeyError body handler).
Proof.
  intros Hb Hh w. unfold except_KeyError. specialize (Hb w).
  destruct (body w) as [[e|a] w1]; simpl in *.
  - destruct e;
      try (eapply only_requests_trans with (k2 := 0%nat);
           [|exact Hb|apply only_requests_refl]; lia).
    eapply only_requests_trans; [|exact Hb|apply Hh]. lia.
  - eapply only_requests_trans with (k2 := 0%nat);
      [|exact Hb|apply only_requests_refl]. lia.
Qed.

End FrameFacts.

Module WikidataMore.
Import Py Eff Frame FrameFacts Wikidata StringFacts WikidataFacts.
Local Open Scope string_scope.

Section Client.
Variable http_json : string -> option json.
Variable py_repr : json -> string.

Lemma performs_get (url : string) :
  performs 1 (requests_get_json http_json url).
Proof. intros w. apply only_requests_log. Qed.

Lemma performs_get_label (entity : json) :
  performs 1 (get_label http_json entity).
Proof.
  destruct entity; try apply (performs_le 0 1), performs_raise; try lia.
  unfold get_label.
  apply (performs_bind 0 1); [apply performs_lift|]. intros seg.
  apply (performs_bind 1 0); [apply performs_get|]. intros result.
  apply performs_lift.
Qed.

Lemma performs_base_value (dv : json) : performs 1 (base_value http_json dv).
Proof.
  unfold base_value.
  apply (performs_bind 0 1); [apply performs_lift|]. intros [|].
  { apply (performs_le 0 1); [lia|apply performs_lift]. }
  apply (performs_bind 0 1); [apply performs_lift|]. intros [|].
  { apply (performs_le 0 1); [lia|apply performs_lift]. }
  apply (performs_bind 0 1); [apply performs_lift|]. intros [|].
  - apply (performs_bind 0 1); [apply performs_lift|]. intros i.
    apply performs_get_label.
  - apply (performs_le 0 1); [lia|apply performs_ret].
Qed.

Lemma performs_add_unit (dv value : json) :
  performs 1 (add_unit http_json dv value).
Proof.
  unfold add_unit. apply (performs_except 1 0); [|apply performs_ret].
  apply (performs_bind 0 1); [apply performs_lift|]. intros u.
  apply (performs_bind 1 0); [apply performs_get_label|]. intros l.
  apply (performs_bind 0 0); [apply performs_lift|]. intros s.
  apply performs_lift.
Qed.

(** X11.  Whatever the replies, [get_prop_value] asks for the claims first and
    then makes at most two more requests (the labels of the value and of
    its unit); it prints nothing and never calls the language model. *)
Theorem get_prop_value_requests (entity prop : string) (w : world) :
  let w' := snd (get_prop_value http_json entity prop w) in
  (exists rest,
     requests w' = (requests w ++ claims_url entity :: rest)%list /\
     (List.length rest <= 2)%nat) /\
  prompts w' = prompts w /\ stdout w' = stdout w.
Proof.
  intros w'.
  assert (H : only_requests 2 (log_request (claims_url entity) w) w').
  { subst w'. unfold get_prop_value, bind at 1, requests_get_json.
    destruct (http_json (claims_url entity)) as [result|];
      [|apply only_requests_refl].
    unfold ok. destruct (first_claim result entity prop) as [e|claim].
    - destruct e; apply only_requests_refl.
    - apply (performs_bind 0 2); [apply performs_lift|]. intros dv.
      apply (performs_bind 1 1); [apply performs_base_value|]. intros v.
      apply performs_add_unit. }
  destruct H as (P & S & rest & R & L). simpl in P, S, R.
  split; [|split; assumption].
  exists rest. rewrite R, <- app_assoc. split; [reflexivity|exact L].
Qed.

End Client.
End WikidataMore.

(** ** Edge cases of the knowledge-base client *)

Module ClientFacts.
Import Py Eff Wikidata StringFacts WikidataFacts.
Local Open Scope string_scope.

Lemma last_occurrence (sep : ascii) (s : string) :
  mem_char sep s = true ->
  exists p seg, s = p ++ String sep seg /\ mem_char sep seg = false.
Proof.
  induction s as [|c s IH]; simpl; [discriminate|]. intros H.
  destruct (mem_char sep s) eqn:E.
  - destruct (IH eq_refl) as (p & seg & -> & Hseg).
    exists (String c p), seg. auto.
  - rewrite orb_false_r in H. apply Ascii.eqb_eq in H. subst c.
    exists EmptyString, s. auto.
Qed.

(** The text after the last separator, the whole string when there is
    none. *)
Lemma last_segment (s : string) :
  exists seg,
    last_item (split "/" s) = ok seg /\ mem_char "/" seg = false /\
    (s = seg \/ exists p, s = p ++ "/" ++ seg).
Proof.
  destruct (mem_char "/" s) eqn:E.
  - destruct (last_occurrence _ _ E) as (p & seg & -> & Hseg).
    exists seg. split; [apply last_item_split_uri, Hseg|].
    split; [exact Hseg|]. right. exists p. reflexivity.
  - exists s. rewrite (split_without_sep _ _ E). auto.
Qed.

Lemma lstrip_spec (chars s : string) :
  exists p,
    s = p ++ lstrip chars s /\
    Lexical.all_chars (fun c => mem_char c chars) p = true /\
    match lstrip chars s with
    | EmptyString => True
    | String c _ => mem_char c chars = false
    end.
Proof.
  induction s as [|c s (p & E & Hp & Hr)]; simpl.
  - exists EmptyString. auto.
  - destruct (mem_char c chars) eqn:Ec.
    + exists (String c p). simpl. rewrite Ec, Hp, <- E. auto.
    + exists EmptyString. simpl. auto.
Qed.

Section Client.
Variable http_json : string -> option json.
Variable py_repr : json -> string.

(** X10.  For every string argument [get_label] makes exactly one request, for
    the text after the last [/] of the argument (the whole argument when
    it has none), whatever comes back; it prints nothing and does not
    call the model. *)
Theorem get_label_request (entity : string) (w : world) :
  let w' := snd (get_label http_json (JStr entity) w) in
  exists seg,
    mem_char "/" seg = false /\
    (entity = seg \/ exists p, entity = p ++ "/" ++ seg) /\
    requests w' = (requests w ++ [label_url seg])%list /\
    prompts w' = prompts w /\ stdout w' = stdout w.
Proof.
  intros w'. destruct (last_segment entity) as (seg & Hl & Hs & He).
  exists seg. split; [exact Hs|]. split; [exact He|].
  subst w'. unfold get_label, bind at 1, lift at 1. rewrite Hl.
  unfold ok, bind, requests_get_json, lift. cbv beta iota.
  destruct (http_json (label_url seg)); cbv beta iota;
    repeat split; reflexivity.
Qed.

(** X12.  A reply that lacks a key on the way to the claims gives
    [None] after the one request: an error reply without [entities], a
    reply whose [entities] do not hold the entity, an entity without
    [claims]. *)
Theorem get_prop_value_missing_key (entity prop : string)
  (reply : list (string * json)) (w : world) :
  http_json (claims_url entity) = Some (JDict reply) ->
  (lookup "entities" reply = None \/
   exists entities,
     lookup "entities" reply = Some (JDict entities) /\
     (lookup entity entities = None \/
      exists item,
        lookup entity entities = Some (JDict item) /\
        lookup "claims" item = None)) ->
  get_prop_value http_json entity prop w =
  (ok JNull, log_request (claims_url entity) w).
Proof.
  intros Hget Hmiss. unfold get_prop_value.
  rewrite (bind_ok _ _ _ _ _ (requests_get_json_some _ _ _ _ Hget)).
  assert (Hc : first_claim (JDict reply) entity prop = throw KeyError).
  { unfold first_claim. simpl.
    destruct Hmiss as [H|(entities & H & [He|(item & He & Hc)])];
      rewrite H; simpl; [reflexivity| |]; rewrite He; simpl;
      [reflexivity|]. rewrite Hc. reflexivity. }
  rewrite Hc. reflexivity.
Qed.

(** X13.  An entry for the property that lists no claim is not a missing key:
    [[0]] raises [IndexError], which is not caught. *)
Theorem get_prop_value_empty_claim_list (entity prop : string)
  (result : json) (claims : list (string * json)) (w : world) :
  http_json (claims_url entity) = Some result ->
  (ok result)@["entities"]@[entity]@["claims"] = ok (JDict claims) ->
  lookup prop claims = Some (JList []) ->
  get_prop_value http_json entity prop w =
  (throw IndexError, log_request (claims_url entity) w).
Proof.
  intros Hget Hclaims Hprop. unfold get_prop_value.
  rewrite (bind_ok _ _ _ _ _ (requests_get_json_some _ _ _ _ Hget)).
  unfold first_claim. rewrite Hclaims. simpl. rewrite Hprop. reflexivity.
Qed.

(** X14.  A first claim whose main snak has no [datavalue] (a claim of "no
    value" or "unknown value") raises [KeyError]: the lookup of line 100
    is outside the [try] of line 95. *)
Theorem get_prop_value_no_datavalue (entity prop : string) (result : json)
  (snak : list (string * json)) (w : world) :
  http_json (claims_url entity) = Some result ->
  first_claim result entity prop = ok (JDict snak) ->
  lookup "datavalue" snak = None ->
  get_prop_value http_json entity prop w =
  (throw KeyError, log_request (claims_url entity) w).
Proof.
  intros Hget Hclaim Hdv. unfold get_prop_value.
  rewrite (bind_ok _ _ _ _ _ (requests_get_json_some _ _ _ _ Hget)).
  rewrite Hclaim. unfold ok at 1. unfold bind, lift. simpl.
  rewrite Hdv. reflexivity.
Qed.

(** X15.  A unit whose label cannot be looked up for a missing key (the unit
    ["1"] of a plain number) is left out silently: the amount comes back
    alone. *)
Theorem get_prop_value_unit_unresolved (entity prop : string)
  (result claim : json) (dv : list (string * json)) (a : string) (u : json)
  (w w2 : world) :
  http_json (claims_url entity) = Some result ->
  first_claim result entity prop = ok claim ->
  (ok claim)@["datavalue"]@["value"] = ok (JDict dv) ->
  lookup "amount" dv = Some (JStr a) ->
  lookup "unit" dv = Some u ->
  get_label http_json u (log_request (claims_url entity) w)
    = (throw KeyError, w2) ->
  get_prop_value http_json entity prop w = (ok (JStr (lstrip "+" a)), w2).
Proof.
  intros Hget Hclaim Hdv Ha Hu Hl.
  rewrite (get_prop_value_claim _ _ _ _ _ _ _ Hget Hclaim Hdv).
  assert (Hb : base_value http_json (JDict dv)
                 (log_request (claims_url entity) w)
               = (ok (JStr (lstrip "+" a)),
                  log_request (claims_url entity) w)).
  { unfold base_value, bind, lift, contains, getitem. rewrite Ha.
    reflexivity. }
  rewrite (bind_ok _ _ _ _ _ Hb).
  apply (add_unit_unresolved _ _ _ _ _ _ Hu Hl).
Qed.

(** X16.  Of an amount only leading [+] signs are taken away, and all of them:
    the value returned is the amount from its first character that is
    not a [+]. *)
Theorem get_prop_value_amount_sign (entity prop : string)
  (result claim : json) (dv : list (string * json)) (a : string)
  (w : world) :
  http_json (claims_url entity) = Some result ->
  first_claim result entity prop = ok claim ->
  (ok claim)@["datavalue"]@["value"] = ok (JDict dv) ->
  lookup "amount" dv = Some (JStr a) ->
  lookup "unit" dv = None ->
  exists plus r,
    get_prop_value http_json entity prop w =
      (ok (JStr r), log_request (claims_url entity) w) /\
    a = plus ++ r /\
    Lexical.all_chars (fun c => Ascii.eqb c "+") plus = true /\
    starts_with "+" r = false.
Proof.
  intros Hget Hclaim Hdv Ha Hu.
  destruct (lstrip_spec "+" a) as (plus & E & Hp & Hr).
  exists plus, (lstrip "+" a). split; [|split; [exact E|split]].
  - rewrite (get_prop_value_claim _ _ _ _ _ _ _ Hget Hclaim Hdv).
    unfold bind, base_value, lift, contains, getitem. rewrite Ha. simpl.
    apply add_unit_no_unit, Hu.
  - clear -Hp. induction plus as [|c p IH]; [reflexivity|].
    simpl in *. apply andb_true_iff in Hp as [Hc Hp].
    rewrite orb_false_r in Hc. rewrite Hc, (IH Hp). reflexivity.
  - destruct (lstrip "+" a) as [|c r]; [reflexivity|].
    simpl in Hr. rewrite orb_false_r, Ascii.eqb_sym in Hr.
    change (starts_with "+" (String c r)) with (Ascii.eqb "+" c && true).
    rewrite Hr. reflexivity.
Qed.

(** X18.  An entity without a link to the English Wikipedia: [KeyError], and
    Wikipedia is not asked. *)
Theorem get_summary_no_enwiki (id : string) (data_result : json)
  (links : list (string * json)) (w : world) :
  http_json (sitelinks_url py_repr (JStr id)) = Some data_result ->
  (ok data_result)@["entities"]@[id]@["sitelinks"] = ok (JDict links) ->
  lookup "enwiki" links = None ->
  get_summary http_json py_repr (JStr id) w =
  (throw KeyError, log_request (sitelinks_url py_repr (JStr id)) w).
Proof.
  intros Hget Hlinks Hen. unfold get_summary.
  rewrite (bind_ok _ _ _ _ _ (requests_get_json_some _ _ _ _ Hget)).
  unfold bind, lift, getitem_json.
  change (rbind ((ok data_result)@["entities"])
            (fun es => getitem es id))
    with ((ok data_result)@["entities"]@[id]).
  destruct ((ok data_result)@["entities"]@[id]) as [e|ent] eqn:E;
    [simpl in Hlinks; discriminate|].
  unfold rbind at 1. unfold rbind at 1 in Hlinks.
  simpl in Hlinks. simpl.
  destruct (getitem ent "sitelinks") as [e|sl]; [discriminate|].
  simpl in *. injection Hlinks as ->. simpl. rewrite Hen. reflexivity.
Qed.

(** X19.  With a link to the English Wikipedia, the article of that title is
    asked for next, and the summary is the extract of the page that the
    reply lists last. *)
Theorem get_summary_last_page (id : string) (data_result wiki_result : json)
  (title extract : json) (page : string * json)
  (pages : list (string * json)) (w : world) :
  http_json (sitelinks_url py_repr (JStr id)) = Some data_result ->
  (ok data_result)@["entities"]@[id]@["sitelinks"]@["enwiki"]@["title"]
    = ok title ->
  http_json (extract_url py_repr title) = Some wiki_result ->
  (ok wiki_result)@["query"]@["pages"] = ok (JDict (page :: pages)) ->
  getitem (snd (List.last pages page)) "extract" = ok extract ->
  get_summary http_json py_repr (JStr id) w =
  (ok extract,
   log_request (extract_url py_repr title)
     (log_request (sitelinks_url py_repr (JStr id)) w)).
Proof.
  intros Hget Htitle Hget2 Hpages Hex. unfold get_summary.
  rewrite (bind_ok _ _ _ _ _ (requests_get_json_some _ _ _ _ Hget)).
  assert (Ht : rbind (rbind ((ok data_result)@["entities"])
                        (fun es => getitem_json es (JStr id)))
                 (fun e => (ok e)@["sitelinks"]@["enwiki"]@["title"])
               = ok title).
  { rewrite <- Htitle. simpl getitem_json.
    destruct ((ok data_result)@["entities"]@[id]) as [e|ent]; reflexivity. }
  rewrite (bind_ok _ _ _ _ _ (f_equal (fun r => (r, _)) Ht)).
  rewrite (bind_ok _ _ _ _ _ (requests_get_json_some _ _ _ _ Hget2)).
  unfold lift. rewrite Hpages. simpl. rewrite Hex. reflexivity.
Qed.

(** X20.  [search_prop] returns the first hit and no other; without a hit it
    raises [IndexError]. *)
Theorem search_prop_first_hit (query : string) (result : json)
  (found : list json) (w : world) :
  http_json (search_prop_url query) = Some result ->
  getitem result "search" = ok (JList found) ->
  search_prop http_json query w =
  (match found with
   | hit :: _ => ok hit
   | [] => throw IndexError
   end, log_request (search_prop_url query) w).
Proof.
  intros Hget Hs. unfold search_prop.
  rewrite (bind_ok _ _ _ _ _ (requests_get_json_some _ _ _ _ Hget)).
  unfold lift. simpl. unfold ok in Hs. rewrite Hs. simpl.
  destruct found; reflexivity.
Qed.

End Client.
End ClientFacts.

(** ** More on the generator and the loop *)

Module ChatMore.
Import Py Eff Chat ChatFacts.
Local Open Scope string_scope.

Lemma str_contains_starts (p s : string) :
  starts_with p s = true -> str_contains p s = true.
Proof. intros H. destruct s; simpl; rewrite H; reflexivity. Qed.

Lemma starts_with_app (p b : string) : starts_with p (p ++ b) = true.
Proof.
  induction p as [|c p IH]; simpl; [reflexivity|].
  rewrite Ascii.eqb_refl, IH. reflexivity.
Qed.

Lemma str_contains_app_r (p a b : string) :
  str_contains p b = true -> str_contains p (a ++ b) = true.
Proof.
  intros H. induction a as [|c a IH]; [exact H|].
  change (str_contains p (String c a ++ b))
    with (starts_with p (String c (a ++ b)) || str_contains p (a ++ b)).
  rewrite IH. apply orb_true_r.
Qed.

(** X21.  For an instruction and turns without an opening bracket, the
    knowledge marker is in the prompt exactly when the knowledge is not
    empty. *)
Theorem generate_query_marker (instruction knowledge : string)
  (dialog : list string) :
  mem_char "[" instruction = false ->
  Forall (fun t => mem_char "[" t = false) dialog ->
  str_contains "[KNOWLEDGE] " (generate_query instruction knowledge dialog)
  = negb (String.eqb knowledge EmptyString).
Proof.
  intros Hi Hd. destruct knowledge as [|c k].
  - apply generate_query_no_marker; assumption.
  - unfold generate_query.
    change (negb (String c k =? EmptyString)) with true. cbv iota.
    do 4 apply str_contains_app_r.
    apply str_contains_starts, starts_with_app.
Qed.

Lemma append_assoc (a b c : string) : ((a ++ b) ++ c = a ++ b ++ c)%string.
Proof. induction a as [|x a IH]; simpl; [|rewrite IH]; reflexivity. Qed.

Lemma append_empty_r (a : string) : (a ++ EmptyString = a)%string.
Proof. induction a as [|x a IH]; simpl; [|rewrite IH]; reflexivity. Qed.

Lemma join_empty_cons (x : string) (l : list string) :
  join EmptyString (x :: l) = (x ++ join EmptyString l)%string.
Proof. destruct l; simpl; [rewrite append_empty_r|]; reflexivity. Qed.

Lemma fold_sentences (l : list string) (k : string) :
  fold_left (fun k sentence => k ++ sentence ++ " ") l k =
  k ++ join EmptyString (map (fun x => x ++ " ") l).
Proof.
  revert k. induction l as [|x l IH]; intros k.
  - simpl. rewrite append_empty_r. reflexivity.
  - cbn [fold_left map]. rewrite IH, join_empty_cons, !append_assoc.
    reflexivity.
Qed.

Section Script.
Variable http_json : string -> option json.
Variable py_repr : json -> string.
Variable dim : nat.
Variable encode : string -> nat -> Q.
Variable empty_batch_cols : option nat.
Variable norm : list Q -> Q.
Variable get_proper_nouns : string -> list string.
Variable sentences : string -> list string.
Variable decode : string -> nat -> string -> string.

Notation summaries_of := (summaries_of http_json py_repr).
Notation knowledge_of :=
  (knowledge_of http_json py_repr dim encode empty_batch_cols norm
     get_proper_nouns sentences).
Notation turn :=
  (turn http_json py_repr dim encode empty_batch_cols norm get_proper_nouns
     sentences decode).
Notation loop :=
  (loop http_json py_repr dim encode empty_batch_cols norm get_proper_nouns
     sentences decode).
Notation main :=
  (main http_json py_repr dim encode empty_batch_cols norm get_proper_nouns
     sentences decode).

Lemma turn_quiet (a : args) (query : string) (dialog : list string)
  (w : world) :
  wikidata a = false \/ get_proper_nouns query = [] ->
  exists w',
    turn a query dialog w = (ok tt, w') /\
    requests w' = requests w /\
    prompts w' =
      (prompts w ++ [generate_query instruction EmptyString
                       (slice_to 500 dialog)])%list.
Proof.
  intros H. unfold Chat.turn.
  assert (K : (if wikidata a then knowledge_of query else ret EmptyString) w
              = (ok EmptyString, w)).
  { destruct (wikidata a); [|reflexivity].
    destruct H as [H|H]; [discriminate|].
    unfold Chat.knowledge_of. rewrite H. reflexivity. }
  rewrite (WikidataFacts.bind_ok _ _ _ _ _ K).
  destruct (verbose a); eexists; (split; [reflexivity|split; reflexivity]).
Qed.

Lemma loop_quiet (a : args) (stdin dialog : list string) (w : world) :
  (forall q, In q stdin -> wikidata a = false \/ get_proper_nouns q = []) ->
  exists w',
    loop a stdin dialog w = (throw EOFError, w') /\
    requests w' = requests w /\
    prompts w' =
      (prompts w ++
       map (fun k => generate_query instruction EmptyString
                       (slice_to 500 (dialog ++ firstn (S k) stdin)%list))
           (seq 0 (List.length stdin)))%list.
Proof.
  revert dialog w.
  induction stdin as [|query rest IH]; intros dialog w Hq.
  - eexists. split; [reflexivity|]. split; [reflexivity|].
    simpl. rewrite app_nil_r. reflexivity.
  - destruct (turn_quiet a query (dialog ++ [query])%list
                (log_stdout "You: " w) (Hq query (or_introl eq_refl)))
      as (w1 & Ht & Hr1 & Hp1).
    destruct (IH (dialog ++ [query])%list w1
                (fun q H => Hq q (or_intror H))) as (w2 & Hl & Hr2 & Hp2).
    exists w2. split; [|split].
    + simpl. unfold bind at 1. unfold print at 1.
      unfold bind at 1. rewrite Ht. exact Hl.
    + rewrite Hr2, Hr1. reflexivity.
    + rewrite Hp2, Hp1. simpl. rewrite <- app_assoc. simpl.
      f_equal. f_equal. rewrite <- seq_shift, map_map.
      apply map_ext. intros k. simpl. rewrite <- app_assoc. reflexivity.
Qed.

Lemma main_quiet (a : args) (stdin : list string) :
  (forall q, In q stdin -> wikidata a = false \/ get_proper_nouns q = []) ->
  exists w',
    main a stdin empty_world = (throw EOFError, w') /\
    requests w' = [] /\
    prompts w' =
      map (fun k => generate_query instruction EmptyString
                      (firstn (Nat.min (S k) 500) stdin))
          (seq 0 (List.length stdin)).
Proof.
  intros Hq.
  destruct (loop_quiet a stdin []
              (log_stdout ("Loading " ++ model_name_of a ++ "...") empty_world)
              Hq) as (w' & Hl & Hr & Hp).
  exists w'. split; [|split].
  - unfold Chat.main, bind, print. rewrite Hl. reflexivity.
  - rewrite Hr. reflexivity.
  - rewrite Hp. change (prompts (log_stdout _ empty_world)) with (@nil string).
    rewrite app_nil_l. apply map_ext. intros k. rewrite app_nil_l.
    unfold slice_to. change (0 <=? 500)%Z with true. cbv iota.
    change (Z.to_nat 500) with 500%nat.
    rewrite firstn_firstn, Nat.min_comm. reflexivity.
Qed.

(** X22.  With [--wikidata] off, or when the recogniser finds no entity in any
    line, a session makes no request, calls the model once for each
    line, and ends with [EOFError] when the input runs out. *)
Theorem session_without_lookup (a : args) (stdin : list string) :
  (forall q, In q stdin -> wikidata a = false \/ get_proper_nouns q = []) ->
  exists w',
    main a stdin empty_world = (throw EOFError, w') /\
    requests w' = [] /\
    List.length (prompts w') = List.length stdin.
Proof.
  intros Hq. destruct (main_quiet a stdin Hq) as (w' & Hm & Hr & Hp).
  exists w'. split; [exact Hm|]. split; [exact Hr|].
  rewrite Hp, length_map, length_seq. reflexivity.
Qed.

(** X23.  In such a session the history of turn [k] (from 0) is the first
    [min (k + 1) 500] lines: all the lines so far up to the 500th turn,
    and from then on the same first 500 lines at every turn. *)
Theorem session_history (a : args) (stdin : list string) (k : nat) :
  (forall q, In q stdin -> wikidata a = false \/ get_proper_nouns q = []) ->
  (k < List.length stdin)%nat ->
  nth_error (prompts (snd (main a stdin empty_world))) k =
  Some (generate_query instruction EmptyString
          (firstn (Nat.min (S k) 500) stdin)).
Proof.
  intros Hq Hk. destruct (main_quiet a stdin Hq) as (w' & Hm & Hr & Hp).
  rewrite Hm. simpl snd. rewrite Hp, nth_error_map.
  rewrite nth_error_seq.
  destruct (Nat.ltb_spec k (List.length stdin)) as [_|H]; [|lia].
  reflexivity.
Qed.

Lemma search_found (query : string) (result found : json) (w : world) :
  http_json (Wikidata.search_url query) = Some result ->
  getitem result "search" = ok found ->
  Wikidata.search http_json query w =
  (ok found, log_request (Wikidata.search_url query) w).
Proof.
  intros Hget Hs. unfold Wikidata.search.
  rewrite (WikidataFacts.bind_ok _ _ _ _ _
             (WikidataFacts.requests_get_json_some _ _ _ _ Hget)).
  unfold lift. change ((ok result)@["search"]) with (getitem result "search").
  rewrite Hs. reflexivity.
Qed.

(** X24.  Of the hits of a search only the first is looked at: its summary is
    the whole of [summaries], whatever else was found. *)
Theorem summaries_of_first_hit (word : string) (result hit id : json)
  (others : list json) (summary : string) (w w2 : world) :
  http_json (Wikidata.search_url word) = Some result ->
  getitem result "search" = ok (JList (hit :: others)) ->
  getitem hit "id" = ok id ->
  Wikidata.get_summary http_json py_repr id
    (log_request (Wikidata.search_url word) w) = (ok (JStr summary), w2) ->
  summaries_of word w = (ok summary, w2).
Proof.
  intros Hget Hs Hid Hsum. unfold Chat.summaries_of.
  rewrite (WikidataFacts.bind_ok _ _ _ _ _ (search_found _ _ _ _ Hget Hs)).
  unfold bind at 1. unfold lift at 1, first_items, ok at 1.
  change (firstn 1 (hit :: others)) with [hit].
  unfold for_each. unfold bind at 1.
  assert (Hl : lift (getitem hit "id")
                 (log_request (Wikidata.search_url word) w)
               = (ok id, log_request (Wikidata.search_url word) w)).
  { unfold lift. rewrite Hid. reflexivity. }
  rewrite (WikidataFacts.bind_ok _ _ _ _ _ Hl).
  rewrite (WikidataFacts.bind_ok _ _ _ _ _ Hsum).
  reflexivity.
Qed.

(** A search without a hit: the summaries are empty after the one
    request. *)
Lemma summaries_of_no_hit (word : string) (result : json) (w : world) :
  http_json (Wikidata.search_url word) = Some result ->
  getitem result "search" = ok (JList []) ->
  summaries_of word w =
  (ok EmptyString, log_request (Wikidata.search_url word) w).
Proof.
  intros Hget Hs. unfold Chat.summaries_of.
  rewrite (WikidataFacts.bind_ok _ _ _ _ _ (search_found _ _ _ _ Hget Hs)).
  reflexivity.
Qed.

(** X25.  A summary of exactly one sentence ends the turn with [TypeError]
    before anything is generated: [get_topn_similar] cannot rank a single
    candidate. *)
Theorem turn_single_sentence (a : args) (query word : string)
  (others : list string) (dialog : list string) (summary sentence : string)
  (w w1 : world) :
  wikidata a = true ->
  get_proper_nouns query = word :: others ->
  summaries_of word w = (ok summary, w1) ->
  sentences summary = [sentence] ->
  turn a query dialog w = (throw TypeError, w1).
Proof.
  intros Ha Hn Hs Hone.
  assert (K : knowledge_of query w = (throw TypeError, w1)).
  { unfold Chat.knowledge_of. rewrite Hn. cbn [for_each].
    unfold bind at 1.
    rewrite (WikidataFacts.bind_ok _ _ _ _ _ Hs).
    rewrite Hone, RankerFacts.get_topn_similar_single. reflexivity. }
  unfold Chat.turn. rewrite Ha. unfold bind at 1. rewrite K. reflexivity.
Qed.

(** X26.  For a query with one entity whose summary has two sentences or
    more, the knowledge is the (at most) ten sentences that rank best
    against the query, in rank order, each followed by one space. *)
Theorem knowledge_of_ranked (query word summary : string) (w w1 : world) :
  get_proper_nouns query = [word] ->
  summaries_of word w = (ok summary, w1) ->
  (2 <= List.length (sentences summary))%nat ->
  exists top,
    Ranker.get_topn_similar dim encode empty_batch_cols norm query
      (sentences summary) 10 = ok top /\
    List.length top = Nat.min 10 (List.length (sentences summary)) /\
    knowledge_of query w =
    (ok (join EmptyString (map (fun x => x ++ " ") top)), w1).
Proof.
  intros Hn Hs Hlen.
  pose proof (RankerMore.get_topn_similar_by_score dim encode
                empty_batch_cols norm query (sentences summary) 10 Hlen)
    as Htop.
  eexists. split; [exact Htop|]. split.
  - unfold slice_to. change (0 <=? 10)%Z with true. cbv iota.
    rewrite length_firstn.
    erewrite <- (Permutation_length (SortFacts.sorted_perm _ _)).
    reflexivity.
  - unfold Chat.knowledge_of. rewrite Hn. cbn [for_each].
    unfold bind at 1. rewrite (WikidataFacts.bind_ok _ _ _ _ _ Hs).
    rewrite Htop. unfold bind, lift, ok, ret.
    rewrite fold_sentences. reflexivity.
Qed.

End Script.
End ChatMore.

(** ** These theorems at the concrete services *)

Module MoreWitnesses.
Import Py Eff Wikidata Ranker Chat Lexical.
Local Open Scope string_scope.

Lemma get_words_between_witness :
  In "mass" (get_words Replies.stop "What is the mass of Saturn?").
Proof.
  apply (LexicalFacts.get_words_between Replies.stop "What is the" "ass"
           "of Saturn?" "m" " " " "); reflexivity.
Defined.

Lemma get_words_empty_word_witness :
  In EmptyString (get_words Replies.stop "What is the mass of Saturn?") /\
  In EmptyString (get_words Replies.stop "?What is the mass of Saturn").
Proof.
  apply (LexicalFacts.get_words_empty_word Replies.stop
           "What is the mass of Saturn" "?"); reflexivity.
Defined.

Lemma get_words_dead_stopword_witness :
  get_words ("The" :: Replies.stop) "The mass of the Sun" =
  get_words Replies.stop "The mass of the Sun".
Proof.
  apply (LexicalFacts.get_words_dead_stopword Replies.stop "The"
           "The mass of the Sun"). reflexivity.
Defined.

Lemma get_topn_similar_all_witness :
  exists out,
    Demo.get_topn_similar "What is Mars?" Replies.mars 5 = ok out /\
    Permutation Replies.mars out /\
    StronglySorted
      (fun c d => (score 2 Demo.encode Demo.norm "What is Mars?" Replies.mars d <=
                   score 2 Demo.encode Demo.norm "What is Mars?" Replies.mars c)%Q)
      out.
Proof.
  apply (RankerFacts.get_topn_similar_all 2 Demo.encode None Demo.norm
           "What is Mars?" Replies.mars 5).
  - apply le_n.
  - intros H. discriminate H.
Defined.

Lemma get_topn_similar_prefix_witness :
  exists top_n top_m,
    Demo.get_topn_similar "What is Mars?" Replies.mars 1 = ok top_n /\
    Demo.get_topn_similar "What is Mars?" Replies.mars 2 = ok top_m /\
    top_n = firstn (Z.to_nat 1) top_m /\
    List.length top_n = Nat.min (Z.to_nat 1) (List.length Replies.mars).
Proof.
  apply (RankerMore.get_topn_similar_prefix 2 Demo.encode None Demo.norm
           "What is Mars?" Replies.mars 1 2).
  - apply le_n.
  - split; intros H; discriminate H.
Defined.

Lemma get_topn_similar_negative_witness :
  exists ranking,
    Demo.get_topn_similar "What is Mars?" Replies.mars
      (Z.of_nat (List.length Replies.mars)) = ok ranking /\
    Demo.get_topn_similar "What is Mars?" Replies.mars (-1) =
      ok (firstn (List.length Replies.mars - Z.to_nat (- -1)) ranking).
Proof.
  apply (RankerMore.get_topn_similar_negative 2 Demo.encode None Demo.norm
           "What is Mars?" Replies.mars (-1)).
  - apply le_n.
  - reflexivity.
Defined.

Lemma get_prop_value_missing_key_witness :
  get_prop_value Replies.http_json "Q0" "P31" empty_world =
  (ok JNull, log_request (claims_url "Q0") empty_world).
Proof.
  apply (ClientFacts.get_prop_value_missing_key Replies.http_json "Q0" "P31"
           [("error", JDict [("code", JStr "no-such-entity")])] empty_world).
  - reflexivity.
  - left. reflexivity.
Defined.

Lemma get_prop_value_empty_claim_list_witness :
  get_prop_value Replies.http_json "Q193" "P7" empty_world =
  (throw IndexError, log_request (claims_url "Q193") empty_world).
Proof.
  apply (ClientFacts.get_prop_value_empty_claim_list Replies.http_json
           "Q193" "P7" Replies.claims Replies.claim_map empty_world);
    reflexivity.
Defined.

Lemma get_prop_value_no_datavalue_witness :
  get_prop_value Replies.http_json "Q193" "P9" empty_world =
  (throw KeyError, log_request (claims_url "Q193") empty_world).
Proof.
  apply (ClientFacts.get_prop_value_no_datavalue Replies.http_json
           "Q193" "P9" Replies.claims Replies.novalue_snak empty_world);
    reflexivity.
Defined.

Lemma get_prop_value_unit_unresolved_witness :
  get_prop_value Replies.http_json "Q193" "P1114" empty_world =
  (ok (JStr "146"), mkWorld [claims_url "Q193"; label_url "1"] [] []).
Proof.
  apply (ClientFacts.get_prop_value_unit_unresolved Replies.http_json
           "Q193" "P1114" Replies.claims
           (Demo.mainsnak (JDict Replies.moons_value) "quantity")
           Replies.moons_value "+146" (JStr "1") empty_world
           (mkWorld [claims_url "Q193"; label_url "1"] [] []));
    reflexivity.
Defined.

Lemma get_prop_value_amount_sign_witness :
  exists plus r,
    get_prop_value Replies.http_json "Q193" "P0" empty_world =
      (ok (JStr r), log_request (claims_url "Q193") empty_world) /\
    "+42" = plus ++ r /\
    all_chars (fun c => Ascii.eqb c "+") plus = true /\
    starts_with "+" r = false.
Proof.
  apply (ClientFacts.get_prop_value_amount_sign Replies.http_json
           "Q193" "P0" Replies.claims
           (Demo.mainsnak (JDict Replies.count_value) "quantity")
           Replies.count_value "+42" empty_world);
    reflexivity.
Defined.

Lemma get_prop_value_other_object_witness :
  get_prop_value Demo.http_json "Q193" "P1813" empty_world =
  (ok (JDict Demo.name_value), log_request (claims_url "Q193") empty_world).
Proof.
  apply (WikidataFacts.get_prop_value_other_object Demo.http_json
           "Q193" "P1813" Demo.saturn_claims
           (Demo.mainsnak (JDict Demo.name_value) "monolingualtext")
           Demo.name_value empty_world);
    reflexivity.
Defined.

Lemma get_summary_no_enwiki_witness :
  get_summary Replies.http_json Demo.py_repr (JStr "Q1") empty_world =
  (throw KeyError,
   log_request (sitelinks_url Demo.py_repr (JStr "Q1")) empty_world).
Proof.
  apply (ClientFacts.get_summary_no_enwiki Replies.http_json Demo.py_repr
           "Q1" (Replies.sitelinks "Q1" Replies.other_links)
           Replies.other_links empty_world);
    reflexivity.
Defined.

Lemma get_summary_last_page_witness :
  get_summary Replies.http_json Demo.py_repr (JStr "Q193") empty_world =
  (ok (JStr "Saturn is the sixth planet from the Sun."),
   log_request (extract_url Demo.py_repr (JStr "Saturn"))
     (log_request (sitelinks_url Demo.py_repr (JStr "Q193")) empty_world)).
Proof.
  apply (ClientFacts.get_summary_last_page Replies.http_json Demo.py_repr
           "Q193" (Replies.sitelinks "Q193" Replies.saturn_links)
           Replies.pages (JStr "Saturn")
           (JStr "Saturn is the sixth planet from the Sun.")
           Replies.saturn_page [] empty_world);
    reflexivity.
Defined.

Lemma search_prop_first_hit_witness :
  search_prop Replies.http_json "mass" empty_world =
  (ok (JDict [("id", JStr "P2067")]),
   log_request (search_prop_url "mass") empty_world).
Proof.
  apply (ClientFacts.search_prop_first_hit Replies.http_json "mass"
           Replies.property_hits
           [JDict [("id", JStr "P2067")]; JDict [("id", JStr "P2046")]]
           empty_world);
    reflexivity.
Defined.

Lemma generate_query_marker_witness :
  str_contains "[KNOWLEDGE] "
    (generate_query instruction "Saturn has rings. " ["Tell me about Saturn"])
  = negb (String.eqb "Saturn has rings. " EmptyString).
Proof.
  apply (ChatMore.generate_query_marker instruction "Saturn has rings. "
           ["Tell me about Saturn"]).
  - reflexivity.
  - repeat constructor.
Defined.

Lemma session_without_lookup_witness :
  exists w',
    main Replies.http_json Demo.py_repr 2 Demo.encode None Demo.norm
      Replies.get_proper_nouns Demo.sentences Demo.decode Replies.flags Replies.chat
      empty_world = (throw EOFError, w') /\
    requests w' = [] /\
    List.length (prompts w') = List.length Replies.chat.
Proof.
  apply (ChatMore.session_without_lookup Replies.http_json Demo.py_repr 2
           Demo.encode None Demo.norm Replies.get_proper_nouns Demo.sentences
           Demo.decode Replies.flags Replies.chat).
  intros q [<-|[<-|[]]]; right; reflexivity.
Defined.

Lemma session_history_witness :
  nth_error
    (prompts (snd (main Replies.http_json Demo.py_repr 2 Demo.encode None
                     Demo.norm Replies.get_proper_nouns Demo.sentences
                     Demo.decode Replies.flags Replies.chat empty_world))) 1 =
  Some (generate_query instruction EmptyString
          (firstn (Nat.min 2 500) Replies.chat)).
Proof.
  apply (ChatMore.session_history Replies.http_json Demo.py_repr 2
           Demo.encode None Demo.norm Replies.get_proper_nouns Demo.sentences
           Demo.decode Replies.flags Replies.chat 1).
  - intros q [<-|[<-|[]]]; right; reflexivity.
  - apply le_n.
Defined.

Lemma summaries_of_first_hit_witness :
  summaries_of Replies.http_json Demo.py_repr "Saturn" empty_world =
  (ok "Saturn is the sixth planet from the Sun.",
   mkWorld [search_url "Saturn"; sitelinks_url Demo.py_repr (JStr "Q193");
            extract_url Demo.py_repr (JStr "Saturn")] [] []).
Proof.
  apply (ChatMore.summaries_of_first_hit Replies.http_json Demo.py_repr
           "Saturn" Replies.hits Replies.saturn_hit (JStr "Q193")
           [Replies.other_hit] "Saturn is the sixth planet from the Sun."
           empty_world);
    reflexivity.
Defined.

Lemma turn_single_sentence_witness :
  turn Replies.http_json Demo.py_repr 2 Demo.encode None Demo.norm
    Replies.get_proper_nouns Demo.sentences Demo.decode Replies.flags
    "Tell me about Saturn" ["Tell me about Saturn"] empty_world =
  (throw TypeError,
   mkWorld [search_url "Saturn"; sitelinks_url Demo.py_repr (JStr "Q193");
            extract_url Demo.py_repr (JStr "Saturn")] [] []).
Proof.
  apply (ChatMore.turn_single_sentence Replies.http_json Demo.py_repr 2
           Demo.encode None Demo.norm Replies.get_proper_nouns Demo.sentences
           Demo.decode Replies.flags "Tell me about Saturn" "Saturn" []
           ["Tell me about Saturn"]
           "Saturn is the sixth planet from the Sun."
           "Saturn is the sixth planet from the Sun." empty_world);
    reflexivity.
Defined.

Lemma knowledge_of_ranked_witness :
  exists top,
    Ranker.get_topn_similar 2 Replies.encode None Demo.norm
      "Tell me about Saturn"
      (Replies.sentences "Saturn is a gas giant. It has rings.") 10
      = ok top /\
    List.length top =
      Nat.min 10
        (List.length (Replies.sentences "Saturn is a gas giant. It has rings."))
    /\
    knowledge_of Replies.http_rings Demo.py_repr 2 Replies.encode None
      Demo.norm Replies.get_proper_nouns Replies.sentences
      "Tell me about Saturn" empty_world =
    (ok (join EmptyString (map (fun x => x ++ " ") top)),
     mkWorld [search_url "Saturn"; sitelinks_url Demo.py_repr (JStr "Q193");
              extract_url Demo.py_repr (JStr "Saturn")] [] []).
Proof.
  apply (ChatMore.knowledge_of_ranked Replies.http_rings Demo.py_repr 2
           Replies.encode None Demo.norm Replies.get_proper_nouns
           Replies.sentences "Tell me about Saturn" "Saturn"
           "Saturn is a gas giant. It has rings." empty_world).
  - reflexivity.
  - reflexivity.
  - apply le_n.
Defined.

End MoreWitnesses.
